(** * Swimlane synchroniser: label diffing and the create/remove decision

    A shallow embedding of the decision logic of the Jira swimlane
    synchroniser (package [main]): the label differ, the swimlane namer,
    the dashboard resolver, the swimlane lookup and [getSwimlaneUpdates].

    Conventions.
    - A Go [string] is a byte sequence: [string] of the Standard Library
      (a list of 8-bit [ascii]).  [==] on strings is [String.eqb].
    - A Go [int] is a [Z]; the program only compares and copies the
      values, it never computes with them.
    - A [[]T] slice is a [list T]; the [nil] slice and the empty slice are
      both [[]] (the program only ranges over its slices).
    - [(T, error)] results are pairs whose second component is
      [option error], [None] standing for Go's [nil] error.
    - The HTTP round trip behind [getCurrentDashboard] is an oracle of the
      section [Decision]. *)

From Stdlib Require Import Strings.String Strings.Ascii Lists.List ZArith Bool Lia.
From Stdlib Require Import DecimalString.
Import ListNotations.

Open Scope string_scope.
Open Scope list_scope.

(** ** The fragment of Go's [strings] and [fmt] packages the program uses *)

Module GoStrings.

(** [strings.CutPrefix s prefix]: [s] without the leading [prefix], when it
    starts with it. *)
Fixpoint CutPrefix (s prefix : string) {struct prefix} : option string :=
  match prefix with
  | EmptyString => Some s
  | String p prefix' =>
      match s with
      | EmptyString => None
      | String c s' =>
          if Ascii.eqb c p then CutPrefix s' prefix' else None
      end
  end.

(** [strings.Cut s sep]: the text before and after the first (leftmost)
    instance of [sep] in [s]; [None] when [sep] does not occur
    ([strings.Index s sep < 0]). *)
Fixpoint Cut (s sep : string) : option (string * string) :=
  match CutPrefix s sep with
  | Some after => Some (EmptyString, after)
  | None =>
      match s with
      | EmptyString => None
      | String c s' =>
          match Cut s' sep with
          | Some (before, after) => Some (String c before, after)
          | None => None
          end
      end
  end.

(** [strings.Contains s substr]. *)
Definition Contains (s substr : string) : bool :=
  match Cut s substr with
  | Some _ => true
  | None => false
  end.

(** The loop of [strings.genSplit] for a non-empty separator:
    [for i < n { m := Index(s, sep); if m < 0 { break };
                 a[i] = s[:m]; s = s[m+len(sep):]; i++ }; a[i] = s]. *)
Fixpoint genSplit (n : nat) (s sep : string) : list string :=
  match n with
  | O => [s]
  | S n' =>
      match Cut s sep with
      | None => [s]
      | Some (before, after) => before :: genSplit n' after sep
      end
  end.

(** [strings.Split s sep] for a non-empty [sep].  Go bounds the loop by
    [min (Count s sep + 1) (len s + 1) - 1] iterations and leaves it as
    soon as [sep] no longer occurs; [length s] bounds both.  The program
    never splits on the empty separator (Go then explodes [s] into its
    UTF-8 sequences), which is outside this model. *)
Definition Split (s sep : string) : list string :=
  genSplit (String.length s) s sep.

(** [strings.Join elems sep]. *)
Definition Join (elems : list string) (sep : string) : string :=
  String.concat sep elems.

(** [fmt.Sprintf format args] for formats made of literal bytes and the
    verb [%s] and for string operands, one per verb: what the three
    formats of the program need.  A verb without an operand prints
    [%!s(MISSING)] as in Go; other verbs and surplus operands are outside
    this model. *)
Fixpoint Sprintf (format : string) (args : list string) : string :=
  match format with
  | String "%" (String "s" format') =>
      match args with
      | a :: args' => a ++ Sprintf format' args'
      | [] => "%!s(MISSING)" ++ Sprintf format' []
      end
  | String c format' => String c (Sprintf format' args)
  | EmptyString => EmptyString
  end.

End GoStrings.

Import GoStrings.

(** ** Constants and data model *)

Definition labelsFieldID : string := "labels".
Definition summaryFieldID : string := "summary".
Definition swimlaneStoryLabel : string := "swimline-story".
Definition createAction : string := "create".
Definition removeAction : string := "remove".
Definition recyclingTeamLabel : string := "recycling-nsk".
Definition recyclingTeamDashboardID : Z := 351.

Record swimlane : Type := mkSwimlane {
  swimlane_ID : Z;
  swimlane_Name : string;
  swimlane_Description : string;
  swimlane_Query : string
}.

Record currentViewConfig : Type := mkCurrentViewConfig {
  Swimlanes : list swimlane
}.

Record dashboard : Type := mkDashboard {
  CurrentViewConfig : currentViewConfig
}.

Record field : Type := mkField {
  field_ID : string;
  field_Text : string
}.

Record issue : Type := mkIssue {
  Key : string;
  Fields : list field
}.

Record swimlaneUpdates : Type := mkSwimlaneUpdates {
  ID : Z;
  Name : string;
  Action : string;
  Query : string
}.

Record changelogItem : Type := mkChangelogItem {
  ToString : string;
  FromString : string;
  Field : string
}.

Record changelogItems : Type := mkChangelogItems {
  Items : list changelogItem
}.

Record changelog : Type := mkChangelog {
  Dataset : changelogItems
}.

(** Go's [error] values as the program builds them: a root cause coming
    from a collaborator, wrapped by [errors.Wrapf] with a message. *)
Inductive error : Type :=
| Cause (msg : string)
| Wrapf (err : error) (msg : string).

(** The composite literal [swimlaneUpdates{}]: every field at its zero
    value.  This is the "no-op" decision. *)
Definition zeroSwimlaneUpdates : swimlaneUpdates :=
  mkSwimlaneUpdates 0 "" "" "".

(** ** Pure helpers *)

(** [has]: linear scan with [==]. *)
Fixpoint has (array : list string) (value : string) : bool :=
  match array with
  | [] => false
  | item :: array' => if String.eqb item value then true else has array' value
  end.

Fixpoint getDashboardID (newLabels : list string) : Z :=
  match newLabels with
  | [] => 0%Z
  | label :: newLabels' =>
      if String.eqb label recyclingTeamLabel then recyclingTeamDashboardID
      else getDashboardID newLabels'
  end.

Fixpoint getLabelsFromChangelog (items : list changelogItem)
  : list string * list string :=
  match items with
  | [] => ([], [])
  | item :: items' =>
      if String.eqb (Field item) labelsFieldID
      then (Split (FromString item) ",", Split (ToString item) ",")
      else getLabelsFromChangelog items'
  end.

Fixpoint getSwimlaneID (name : string) (swimlanes : list swimlane) : Z :=
  match swimlanes with
  | [] => 0%Z
  | sw :: swimlanes' =>
      if String.eqb (swimlane_Name sw) name then swimlane_ID sw
      else getSwimlaneID name swimlanes'
  end.

Definition isNeedToCreateSwimlane (newLabels oldLabels : list string) : bool :=
  has newLabels swimlaneStoryLabel && negb (has oldLabels swimlaneStoryLabel).

Definition isNeedToRemoveSwimlane (newLabels oldLabels : list string) : bool :=
  negb (has newLabels swimlaneStoryLabel) && has oldLabels swimlaneStoryLabel.

Fixpoint dashboardSwimlaneAlreadyExists
  (currentSwimlanes : list swimlane) (newSwimlane : string) : bool :=
  match currentSwimlanes with
  | [] => false
  | sw :: currentSwimlanes' =>
      if String.eqb (swimlane_Name sw) newSwimlane then true
      else dashboardSwimlaneAlreadyExists currentSwimlanes' newSwimlane
  end.

(** The loop of [getSwimlaneName] over the fields of the issue with key
    [key]. *)
Fixpoint getSwimlaneName_loop (key : string) (fields : list field) : string :=
  match fields with
  | [] => Sprintf "<%s> No summary" [key]
  | f :: fields' =>
      if String.eqb (field_ID f) summaryFieldID
      then Sprintf "<%s> %s" [key; field_Text f]
      else getSwimlaneName_loop key fields'
  end.

Definition getSwimlaneName (i : issue) : string :=
  getSwimlaneName_loop (Key i) (Fields i).

Definition getSwimlaneQuery (issueKey : string) : string :=
  Sprintf "issue in linkedIssues(%s)" [issueKey].

(** The loop of [getLabelsField]: the value of [labelsText] when the loop
    is left, starting from [labelsText]. *)
Fixpoint getLabelsField_loop (labelsText : string) (fields : list field) : string :=
  match fields with
  | [] => labelsText
  | f :: fields' =>
      if String.eqb (field_ID f) labelsFieldID then field_Text f
      else getLabelsField_loop labelsText fields'
  end.

Definition getLabelsField (fields : list field) : list string :=
  let labelsText := getLabelsField_loop "" fields in
  Split labelsText ", ".

(** ** The decision step *)

(** Lines 144-168 of [getSwimlaneUpdates]: what the function computes once
    the current swimlanes are fetched.  The values of the two calls
    [isNeedToCreateSwimlane newLabels oldLabels] (the local
    [needToCreateSwimlanes]) and [isNeedToRemoveSwimlane newLabels oldLabels]
    are arguments, so that the control flow can be examined for every
    pair of flags. *)
Definition swimlaneUpdatesFor
  (needToCreateSwimlanes needToRemoveSwimlane : bool)
  (newIssue : issue) (currentSwimlanes : list swimlane) : swimlaneUpdates :=
  let swimlaneName := getSwimlaneName newIssue in
  if needToCreateSwimlanes
     && dashboardSwimlaneAlreadyExists currentSwimlanes swimlaneName
  then zeroSwimlaneUpdates
  else
    let result := zeroSwimlaneUpdates in
    let result :=
      if needToCreateSwimlanes
      then mkSwimlaneUpdates 0 swimlaneName createAction
             (getSwimlaneQuery (Key newIssue))
      else result in
    let result :=
      if needToRemoveSwimlane
      then mkSwimlaneUpdates (getSwimlaneID swimlaneName currentSwimlanes)
             swimlaneName removeAction ""
      else result in
    result.

Section Decision.

(** The tracker's answer to "GET dashboard current settings": the
    decoded dashboard and the error of the round trip. *)
Variable getCurrentDashboard : Z -> dashboard * option error.

Definition getCurrentSwimlanes (dashboardID : Z)
  : list swimlane * option error :=
  match getCurrentDashboard dashboardID with
  | (_, Some err) => ([], Some (Wrapf err "Can not get current swimlanes"))
  | (d, None) => (Swimlanes (CurrentViewConfig d), None)
  end.

Definition getSwimlaneUpdates
  (dashboardID : Z) (newIssue : issue) (oldLabels newLabels : list string)
  : swimlaneUpdates * option error :=
  match getCurrentSwimlanes dashboardID with
  | (_, Some err) => (zeroSwimlaneUpdates, Some err)
  | (currentSwimlanes, None) =>
      (swimlaneUpdatesFor
         (isNeedToCreateSwimlane newLabels oldLabels)
         (isNeedToRemoveSwimlane newLabels oldLabels)
         newIssue currentSwimlanes,
       None)
  end.

(** Lines 85-88 of [updateDashboardIfNeed]: the decision taken for a
    change event, before it is handed to the tracker client. *)
Definition updatesFromChangelog (newIssue : issue) (log : changelog)
  : swimlaneUpdates * option error :=
  let (oldLabels, newLabels) := getLabelsFromChangelog (Items (Dataset log)) in
  let dashboardID := getDashboardID newLabels in
  getSwimlaneUpdates dashboardID newIssue oldLabels newLabels.

End Decision.

(** ** Sample data

    The running example of the specification: issue PROJ-1 "Fix crash",
    dashboards with and without its swimlane, and two changelog items
    whose from-value lists the trigger label, once after a bare comma and
    once after a comma and a space. *)

Module Scenario.

Definition issue1 : issue :=
  mkIssue "PROJ-1" [mkField "labels" "bug, swimline-story";
                    mkField "summary" "Fix crash"].

Definition lane7 : swimlane :=
  mkSwimlane 7 "<PROJ-1> Fix crash" "" "issue in linkedIssues(PROJ-1)".

(** A tracker that answers every dashboard request with the swimlanes
    [cs]. *)
Definition trackerWith (cs : list swimlane) : Z -> dashboard * option error :=
  fun _ => (mkDashboard (mkCurrentViewConfig cs), None).

Definition commaItem : changelogItem :=
  mkChangelogItem "other" "other,swimline-story" "labels".

Definition commaSpaceItem : changelogItem :=
  mkChangelogItem "other" "other, swimline-story" "labels".

Definition statusItem : changelogItem :=
  mkChangelogItem "Done" "Open" "status".

Definition logOf (items : list changelogItem) : changelog :=
  mkChangelog (mkChangelogItems items).

End Scenario.

(** ** More of Go's library: decimal operands, base64 and JSON byte slices *)

Module GoFmt.

(** [strconv.Itoa]: the decimal digits of an [int], with a leading "-"
    for a negative one. *)
Definition Itoa (i : Z) : string :=
  NilZero.string_of_int (Z.to_int i).

(** An operand of [fmt.Sprintf]: a [string] or an [int]. *)
Inductive operand : Type :=
| OfString (s : string)
| OfInt (i : Z).

(** What the verbs [%s] and [%d] print for an operand; an operand of the
    other type prints as Go's bad-verb notice. *)
Definition verb_s (a : operand) : string :=
  match a with
  | OfString s => s
  | OfInt i => "%!s(int=" ++ Itoa i ++ ")"
  end.

Definition verb_d (a : operand) : string :=
  match a with
  | OfInt i => Itoa i
  | OfString s => "%!d(string=" ++ s ++ ")"
  end.

(** [fmt.Sprintf format args] for formats made of literal bytes and the
    verbs [%s] and [%d], with [string] and [int] operands.  A verb
    without an operand prints its [MISSING] notice; other verbs and
    surplus operands are outside this model. *)
Fixpoint Sprintfv (format : string) (args : list operand) : string :=
  match format with
  | String "%" (String "s" format') =>
      match args with
      | a :: args' => verb_s a ++ Sprintfv format' args'
      | [] => "%!s(MISSING)" ++ Sprintfv format' []
      end
  | String "%" (String "d" format') =>
      match args with
      | a :: args' => verb_d a ++ Sprintfv format' args'
      | [] => "%!d(MISSING)" ++ Sprintfv format' []
      end
  | String c format' => String c (Sprintfv format' args)
  | EmptyString => EmptyString
  end.

End GoFmt.

Module GoJson.

Definition encodeStd : string :=
  "ABCDEFGHIJKLMNOPQRSTUVWXYZabcdefghijklmnopqrstuvwxyz0123456789+/".

(** The character of the standard alphabet for a 6-bit value. *)
Definition enc (v : N) : ascii :=
  match String.get (N.to_nat (N.land v 63)) encodeStd with
  | Some c => c
  | None => "="%char
  end.

(** [base64.StdEncoding.EncodeToString]: three bytes give four
    characters; a last group of one or two bytes is padded with "=". *)
Fixpoint EncodeToString (src : string) : string :=
  match src with
  | EmptyString => EmptyString
  | String a EmptyString =>
      let val := N.shiftl (N_of_ascii a) 16 in
      String (enc (N.shiftr val 18)) (String (enc (N.shiftr val 12)) "==")
  | String a (String b EmptyString) =>
      let val := N.lor (N.shiftl (N_of_ascii a) 16) (N.shiftl (N_of_ascii b) 8) in
      String (enc (N.shiftr val 18)) (String (enc (N.shiftr val 12))
        (String (enc (N.shiftr val 6)) "="))
  | String a (String b (String c src')) =>
      let val := N.lor (N.lor (N.shiftl (N_of_ascii a) 16)
                              (N.shiftl (N_of_ascii b) 8)) (N_of_ascii c) in
      String (enc (N.shiftr val 18)) (String (enc (N.shiftr val 12))
        (String (enc (N.shiftr val 6)) (String (enc val)
          (EncodeToString src'))))
  end.

(** The quotation mark, byte 34. *)
Definition quote : ascii := "034"%char.

(** [json.Marshal] of a non-nil [[]byte]: a JSON string holding the
    base64 encoding of the bytes.  It has no error case. *)
Definition MarshalBytes (data : string) : string * option error :=
  (String quote (EncodeToString data ++ String quote EmptyString), None).

End GoJson.

(** ** The tracker client

    The functions that talk to Jira, in a state monad over the list of
    requests handed to the HTTP client so far.  What lies outside the
    program is gathered in an [environment]: the package-level settings
    declared elsewhere, the JSON codec for the program's structures, URL
    parsing, and the tracker itself, which answers a request knowing the
    requests made before. *)

Module Http.

Record Request : Type := mkRequest {
  Method : string;
  URL : string;
  Header : list (string * string);
  Body : option string
}.

(** A response: its status code and what [ioutil.ReadAll] makes of its
    body. *)
Record Response : Type := mkResponse {
  StatusCode : Z;
  ReadAll : string * option error
}.

(** The result of [client.Do] and [http.Post].  The program never looks
    at the response when the error is set. *)
Inductive outcome : Type :=
| Failed (err : error)
| Reply (response : Response).

End Http.

Import Http.

Record session : Type := mkSession {
  session_Name : string;
  session_Value : string
}.

Record authData : Type := mkAuthData {
  Session : session
}.

Record environment : Type := mkEnvironment {
  apiBaseURI : string;
  loginURI : string;
  username : string;
  password : string;
  (** [json.Marshal] of a [map[string]string], given as its entries. *)
  MarshalMap : list (string * string) -> string * option error;
  (** [json.Unmarshal] into a zero [authData], [issue] and [dashboard]:
      the value left in the variable and, where the program reads it, the
      error. *)
  UnmarshalAuthData : string -> authData * option error;
  UnmarshalIssue : string -> issue;
  UnmarshalDashboard : string -> dashboard;
  (** The error of [url.Parse], the only way [http.NewRequest] fails for
      the methods of the program. *)
  ParseError : string -> option error;
  (** The tracker: its answer to a request, after the requests before. *)
  RoundTrip : list Request -> Request -> outcome
}.

(** Computations that hand requests to the HTTP client. *)
Definition IO (A : Type) : Type := list Request -> A * list Request.

Definition ret {A : Type} (a : A) : IO A := fun log => (a, log).

Definition bind {A B : Type} (c : IO A) (k : A -> IO B) : IO B :=
  fun log => let (a, log') := c log in k a log'.

Declare Scope io_scope.
Delimit Scope io_scope with io.
Notation "x <- c ;; k" := (bind c (fun x => k))
  (at level 61, c at next level, right associativity) : io_scope.
Notation "' pat <- c ;; k" := (bind c (fun x => match x with pat => k end))
  (at level 61, pat pattern, c at next level, right associativity) : io_scope.

Definition zeroAuthData : authData := mkAuthData (mkSession "" "").
Definition zeroIssue : issue := mkIssue "" [].
Definition zeroDashboard : dashboard := mkDashboard (mkCurrentViewConfig []).
Definition zeroRequest : Request := mkRequest "" "" [] None.

(** [errors.Wrap]: [errors.Wrapf] with a message that needs no
    formatting. *)
Definition Wrap (err : error) (message : string) : error := Wrapf err message.

Module Client.

Import GoFmt GoJson.

Section Env.

Variable env : environment.

Local Open Scope io_scope.

Definition NewRequest (method url : string) (body : option string)
  : Request * option error :=
  match ParseError env url with
  | Some err => (zeroRequest, Some err)
  | None => (mkRequest method url [] body, None)
  end.

(** [request.Header.Add key value]. *)
Definition HeaderAdd (request : Request) (key value : string) : Request :=
  mkRequest (Method request) (URL request)
    (Header request ++ [(key, value)]) (Body request).

(** [client.Do request]: the request is handed over and the tracker
    answers. *)
Definition Do (request : Request) : IO outcome :=
  fun log => (RoundTrip env log request, log ++ [request]).

(** [http.Post url contentType body]: builds the request, sets its
    content type and sends it. *)
Definition Post (url contentType body : string) : IO outcome :=
  match NewRequest "POST" url (Some body) with
  | (_, Some err) => ret (Failed err)
  | (request, None) => Do (HeaderAdd request "Content-Type" contentType)
  end.

Definition login : IO (authData * option error) :=
  let loginData := [("username", username env); ("password", password env)] in
  match MarshalMap env loginData with
  | (_, Some err) => ret (zeroAuthData, Some (Wrap err "Auth failed"))
  | (request, None) =>
      response <- Post (loginURI env) "application/json" request ;;
      match response with
      | Failed err => ret (zeroAuthData, Some (Wrap err "Auth failed"))
      | Reply response =>
          match ReadAll response with
          | (_, Some err) => ret (zeroAuthData, Some (Wrap err "Auth failed"))
          | (body, None) =>
              match UnmarshalAuthData env body with
              | (_, Some err) =>
                  ret (zeroAuthData, Some (Wrap err "Auth failed"))
              | (result, None) => ret (result, None)
              end
          end
      end
  end.

(** The two headers every authenticated request gets. *)
Definition withSession (request : Request) (auth : authData) : Request :=
  let request :=
    HeaderAdd request "Cookie"
      (Sprintf "%s=%s" [session_Name (Session auth);
                        session_Value (Session auth)]) in
  HeaderAdd request "X-Atlassian-Token" "no-check".

Definition getFromJiraAPI (uri : string) : IO (string * option error) :=
  '(auth, err) <- login ;;
  match err with
  | Some err => ret (EmptyString, Some err)
  | None =>
      match NewRequest "GET" uri None with
      | (_, Some err) =>
          ret (EmptyString,
               Some (Wrapf err
                       (Sprintf "Jira api request building failed %s" [uri])))
      | (request, None) =>
          response <- Do (withSession request auth) ;;
          match response with
          | Failed err =>
              ret (EmptyString,
                   Some (Wrapf err (Sprintf "Jira api request failed %s" [uri])))
          | Reply response =>
              match ReadAll response with
              | (_, Some err) =>
                  ret (EmptyString,
                       Some (Wrapf err
                               (Sprintf "Jira api request failed %s" [uri])))
              | (body, None) => ret (body, None)
              end
          end
      end
  end.

Definition postToJiraAPI (uri data : string) : IO (string * option error) :=
  '(auth, err) <- login ;;
  match err with
  | Some err => ret (EmptyString, Some err)
  | None =>
      match MarshalBytes data with
      | (_, Some err) => ret (EmptyString, Some (Wrap err "Post request failed"))
      | (body, None) =>
          match NewRequest "POST" uri (Some body) with
          | (_, Some err) =>
              ret (EmptyString,
                   Some (Wrapf err
                           (Sprintf "Jira api request building failed %s" [uri])))
          | (request, None) =>
              response <- Do (withSession request auth) ;;
              match response with
              | Failed err =>
                  ret (EmptyString,
                       Some (Wrapf err
                               (Sprintf "Jira api request failed %s" [uri])))
              | Reply response =>
                  match ReadAll response with
                  | (_, Some err) =>
                      ret (EmptyString,
                           Some (Wrapf err
                                   (Sprintf "Jira api request failed %s" [uri])))
                  | (result, None) => ret (result, None)
                  end
              end
          end
      end
  end.

Definition deleteFromJiraAPI (uri : string) : IO (option error) :=
  '(auth, err) <- login ;;
  match err with
  | Some err => ret (Some err)
  | None =>
      match NewRequest "DELETE" uri None with
      | (_, Some err) =>
          ret (Some (Wrapf err
                       (Sprintf "Jira api request building failed %s" [uri])))
      | (request, None) =>
          response <- Do (withSession request auth) ;;
          match response with
          | Failed err =>
              ret (Some (Wrapf err (Sprintf "Jira api request failed %s" [uri])))
          | Reply _ => ret None
          end
      end
  end.

Definition getCurrentIssue (key : string) : IO (issue * option error) :=
  let uri :=
    Sprintf
      "%s/rest/greenhopper/1.0/xboard/issue/details.json?rapidViewId=368&issueIdOrKey=%s"
      [apiBaseURI env; key] in
  '(body, err) <- getFromJiraAPI uri ;;
  match err with
  | Some err =>
      ret (zeroIssue, Some (Wrapf err (Sprintf "Can not get current issue %s" [key])))
  | None => ret (UnmarshalIssue env body, None)
  end.

Definition getCurrentDashboard (ID : Z) : IO (dashboard * option error) :=
  let uri :=
    Sprintfv
      "%s/rest/greenhopper/1.0/xboard/config.json?returnDefaultBoard=false&rapidViewId=%d"
      [OfString (apiBaseURI env); OfInt ID] in
  '(body, err) <- getFromJiraAPI uri ;;
  match err with
  | Some err =>
      ret (zeroDashboard,
           Some (Wrapf err (Sprintfv "Can not get current dashboard %d" [OfInt ID])))
  | None => ret (UnmarshalDashboard env body, None)
  end.

(** [getSwimlaneUpdates] of section [Decision], run against the tracker
    as it stands: its one request for the dashboard, made with
    [dashboardID], is answered after the requests of [log]. *)
Definition getSwimlaneUpdates
  (dashboardID : Z) (newIssue : issue) (oldLabels newLabels : list string)
  : IO (swimlaneUpdates * option error) :=
  fun log =>
    (getSwimlaneUpdates (fun ID => fst (getCurrentDashboard ID log))
       dashboardID newIssue oldLabels newLabels,
     snd (getCurrentDashboard dashboardID log)).

Definition removeSwimlane (dashboardID swimlaneID : Z) : IO (option error) :=
  let uri :=
    Sprintfv "%s/rest/greenhopper/1.0/swimlanes/%d/%d"
      [OfString (apiBaseURI env); OfInt dashboardID; OfInt swimlaneID] in
  deleteFromJiraAPI uri.

Definition createSwimlane (dashboardID : Z) (updates : swimlaneUpdates)
  : IO (option error) :=
  let uri :=
    Sprintfv "%s/rest/greenhopper/1.0/swimlanes/%d/"
      [OfString (apiBaseURI env); OfInt dashboardID] in
  let data := [("name", Name updates); ("query", Query updates)] in
  match MarshalMap env data with
  | (_, Some err) => ret (Some (Wrap err "Can not create swimlane"))
  | (body, None) =>
      '(_, err) <- postToJiraAPI uri body ;;
      ret err
  end.

Definition updateDashboardIfNeed (newIssue : issue) (log : changelog)
  : IO (option error) :=
  let (oldLabels, newLabels) := getLabelsFromChangelog (Items (Dataset log)) in
  let dashboardID := getDashboardID newLabels in
  '(updates, err) <- getSwimlaneUpdates dashboardID newIssue oldLabels newLabels ;;
  match err with
  | Some err => ret (Some err)
  | None =>
      if String.eqb (Action updates) removeAction
      then removeSwimlane dashboardID (ID updates)
      else if String.eqb (Action updates) createAction
      then _ <- createSwimlane dashboardID updates ;; ret None
      else ret None
  end.

End Env.

End Client.

(** ** The earlier revision, [jira-api.go]

    [jira-api.go] holds an earlier revision of the same functions.  Its
    [getSwimlaneUpdates] reads the labels off two snapshots of the issue
    with [getLabelsField], its decision has no identity, and its
    [updateDashboardIfNeed] does not act on the decision yet.  The helpers
    it shares with the later revision are the ones above. *)

Module JiraApi.

Record swimlaneUpdates : Type := mkSwimlaneUpdates {
  Name : string;
  Action : string;
  Query : string
}.

Definition zeroSwimlaneUpdates : swimlaneUpdates := mkSwimlaneUpdates "" "" "".

Section Decision.

Variable getCurrentDashboard : Z -> dashboard * option error.

Definition getSwimlaneUpdates (dashboardID : Z) (newIssue oldIssue : issue)
  : swimlaneUpdates * option error :=
  let newLabels := getLabelsField (Fields newIssue) in
  let oldLabels := getLabelsField (Fields oldIssue) in
  match getCurrentSwimlanes getCurrentDashboard dashboardID with
  | (_, Some err) => (zeroSwimlaneUpdates, Some err)
  | (currentSwimlanes, None) =>
      let swimlaneName := getSwimlaneName newIssue in
      let needToCreateSwimlanes := isNeedToCreateSwimlane newLabels oldLabels in
      if needToCreateSwimlanes
         && dashboardSwimlaneAlreadyExists currentSwimlanes swimlaneName
      then (zeroSwimlaneUpdates, None)
      else
        let result := zeroSwimlaneUpdates in
        let result :=
          if needToCreateSwimlanes
          then mkSwimlaneUpdates swimlaneName createAction
                 (getSwimlaneQuery (Key newIssue))
          else result in
        let result :=
          if isNeedToRemoveSwimlane newLabels oldLabels
          then mkSwimlaneUpdates swimlaneName removeAction ""
          else result in
        (result, None)
  end.

(** Both branches on the action are empty in this revision. *)
Definition updateDashboardIfNeed (oldIssue newIssue : issue) (dashboardID : Z)
  : option error :=
  let (updates, err) := getSwimlaneUpdates dashboardID newIssue oldIssue in
  match err with
  | Some err => Some err
  | None =>
      if String.eqb (Action updates) removeAction then None
      else if String.eqb (Action updates) createAction then None
      else None
  end.

End Decision.

End JiraApi.

(** ** Requests and addresses, for the statements about the client *)

Module ClientSpec.

Import GoFmt GoJson.

Section Env.

Variable env : environment.

(** The request [login] hands to the HTTP client. *)
Definition loginRequest : Request :=
  mkRequest "POST" (loginURI env) [("Content-Type", "application/json")]
    (Some (fst (MarshalMap env [("username", username env);
                                ("password", password env)]))).

(** A request of [method] to [uri] that carries the session of [auth]. *)
Definition sessionRequest
  (method uri : string) (body : option string) (auth : authData) : Request :=
  Client.withSession (mkRequest method uri [] body) auth.

Definition configURI (ID : Z) : string :=
  (apiBaseURI env
   ++ "/rest/greenhopper/1.0/xboard/config.json?returnDefaultBoard=false&rapidViewId="
   ++ Itoa ID)%string.

Definition swimlaneURI (dashboardID swimlaneID : Z) : string :=
  (apiBaseURI env ++ "/rest/greenhopper/1.0/swimlanes/" ++ Itoa dashboardID
   ++ "/" ++ Itoa swimlaneID)%string.

Definition swimlanesURI (dashboardID : Z) : string :=
  (apiBaseURI env ++ "/rest/greenhopper/1.0/swimlanes/" ++ Itoa dashboardID
   ++ "/")%string.

(** The body of the creation request for [updates]: the JSON string that
    holds the base64 text of the marshalled name and query. *)
Definition creationBody (updates : swimlaneUpdates) : string :=
  String quote
    (EncodeToString
       (fst (MarshalMap env [("name", Name updates); ("query", Query updates)]))
     ++ String quote EmptyString).

Definition issueURI (key : string) : string :=
  (apiBaseURI env
   ++ "/rest/greenhopper/1.0/xboard/issue/details.json?rapidViewId=368&issueIdOrKey="
   ++ key)%string.

End Env.

End ClientSpec.

(** A decision of the later revision without its identity. *)
Definition withoutID (u : swimlaneUpdates) : JiraApi.swimlaneUpdates :=
  JiraApi.mkSwimlaneUpdates (Name u) (Action u) (Query u).

(** ** A sample tracker *)

Module Sample.

(** Answers every GET with [status] and [configBody], every other
    request that carries a session cookie with [mutation], and the login
    with a token. *)
Definition tracker (status : Z) (configBody : string) (mutation : outcome)
  : list Request -> Request -> outcome :=
  fun _ request =>
    if String.eqb (Method request) "GET"
    then Reply (mkResponse status (configBody, None))
    else if existsb (fun h => String.eqb (fst h) "Cookie") (Header request)
    then mutation
    else Reply (mkResponse 200 ("token", None)).

(** A stand-in for the JSON codec: entries are printed as [key=value]
    joined by "&"; a dashboard body "lane7" decodes to the dashboard that
    holds [Scenario.lane7], any other body to the empty dashboard. *)
Definition env (answer : list Request -> Request -> outcome) : environment :=
  mkEnvironment
    "https://jira.example" "https://jira.example/login" "bot" "secret"
    (fun entries =>
       (Join (map (fun e => (fst e ++ "=" ++ snd e)%string) entries) "&", None))
    (fun body => (mkAuthData (mkSession "JSESSIONID" body), None))
    (fun _ => Scenario.issue1)
    (fun body =>
       mkDashboard (mkCurrentViewConfig
                      (if String.eqb body "lane7" then [Scenario.lane7] else [])))
    (fun _ => None)
    answer.

(** A tracker that cannot be reached. *)
Definition unreachable : list Request -> Request -> outcome :=
  fun _ _ => Failed (Cause "dial tcp: connection refused").

Definition labelsAdded : changelog :=
  Scenario.logOf [mkChangelogItem "recycling-nsk,swimline-story"
                    "recycling-nsk" "labels"].

Definition labelsRemoved : changelog :=
  Scenario.logOf [mkChangelogItem "recycling-nsk"
                    "recycling-nsk,swimline-story" "labels"].

Definition teamLeft : changelog :=
  Scenario.logOf [mkChangelogItem "bug"
                    "recycling-nsk,swimline-story,bug" "labels"].

(** The session the sample tracker opens. *)
Definition token : authData := mkAuthData (mkSession "JSESSIONID" "token").

(** No tracker at all. *)
Definition offline : environment := env unreachable.

(** An empty dashboard; creations and removals fail. *)
Definition emptyBoard : environment :=
  env (tracker 200 "" (Failed (Cause "broken pipe"))).

(** A dashboard with the swimlane of PROJ-1; creations and removals are
    answered with status 404. *)
Definition boardWithLane7 : environment :=
  env (tracker 500 "lane7" (Reply (mkResponse 404 ("Not Found", None)))).

End Sample.

(** ** Facts about the string primitives *)

Module GoStringsFacts.

Lemma CutPrefix_spec (prefix s after : string) :
  CutPrefix s prefix = Some after -> s = (prefix ++ after)%string.
Proof.
  revert s after.
  induction prefix as [|p prefix IH]; intros s after H; simpl in *.
  - injection H as ->. reflexivity.
  - destruct s as [|c s]; [discriminate|].
    destruct (Ascii.eqb c p) eqn:E; [|discriminate].
    apply Ascii.eqb_eq in E. subst c.
    f_equal. now apply IH.
Qed.

Lemma CutPrefix_app (prefix s after rest : string) :
  CutPrefix s prefix = Some after ->
  CutPrefix (s ++ rest) prefix = Some (after ++ rest)%string.
Proof.
  revert s after.
  induction prefix as [|p prefix IH]; intros s after H; simpl in *.
  - injection H as ->. reflexivity.
  - destruct s as [|c s]; [discriminate|]. simpl.
    destruct (Ascii.eqb c p); [|discriminate].
    now apply IH.
Qed.

Lemma CutPrefix_length (prefix s after : string) :
  CutPrefix s prefix = Some after ->
  String.length s = String.length prefix + String.length after.
Proof.
  intros H. apply CutPrefix_spec in H. subst s.
  induction prefix; simpl; auto.
Qed.

(** The equation of [Cut], one unfolding. *)
Lemma Cut_unfold (s sep : string) :
  Cut s sep =
  match CutPrefix s sep with
  | Some after => Some (EmptyString, after)
  | None =>
      match s with
      | EmptyString => None
      | String c s' =>
          match Cut s' sep with
          | Some (before, after) => Some (String c before, after)
          | None => None
          end
      end
  end.
Proof. destruct s; reflexivity. Qed.

(** [Cut] finds an instance of the separator: the input is
    [before ++ sep ++ after]. *)
Lemma Cut_spec (sep s before after : string) :
  Cut s sep = Some (before, after) -> s = (before ++ sep ++ after)%string.
Proof.
  revert before after.
  induction s as [|c s IH]; intros before after H; rewrite Cut_unfold in H.
  - destruct (CutPrefix "" sep) eqn:E; [|discriminate].
    inversion H; subst. now apply CutPrefix_spec in E.
  - destruct (CutPrefix (String c s) sep) eqn:E.
    + inversion H; subst. now apply CutPrefix_spec in E.
    + destruct (Cut s sep) as [[b a]|] eqn:E'; [|discriminate].
      inversion H; subst. simpl. f_equal. now apply IH.
Qed.

Lemma Cut_length (sep s before after : string) :
  Cut s sep = Some (before, after) ->
  String.length s = String.length before + String.length sep + String.length after.
Proof.
  intros H. apply Cut_spec in H. subst s.
  induction before as [|c before IH]; simpl.
  - induction sep; simpl; auto.
  - now rewrite IH.
Qed.

(** ... and it is the leftmost one: the separator does not occur in
    [before]. *)
Lemma Cut_before (sep s before after : string) :
  sep <> EmptyString ->
  Cut s sep = Some (before, after) -> Cut before sep = None.
Proof.
  intros Hsep. revert before after.
  induction s as [|c s IH]; intros before after H; rewrite Cut_unfold in H.
  - destruct (CutPrefix "" sep) eqn:E; [|discriminate].
    destruct sep; [contradiction|discriminate].
  - destruct (CutPrefix (String c s) sep) eqn:E.
    + inversion H; subst.
      destruct sep; [contradiction|reflexivity].
    + destruct (Cut s sep) as [[b a]|] eqn:E'; [|discriminate].
      inversion H; subst.
      rewrite Cut_unfold.
      destruct (CutPrefix (String c b) sep) eqn:E2.
      * apply Cut_spec in E'. subst s.
        apply CutPrefix_app with (rest := (sep ++ after)%string) in E2.
        simpl in E2. rewrite E in E2. discriminate.
      * now rewrite (IH b after).
Qed.

Lemma Cut_empty (sep : string) :
  sep <> EmptyString -> Cut EmptyString sep = None.
Proof. destruct sep; [contradiction|reflexivity]. Qed.

Lemma genSplit_not_nil (n : nat) (s sep : string) : genSplit n s sep <> [].
Proof.
  destruct n; simpl; [discriminate|].
  destruct (Cut s sep) as [[b a]|]; discriminate.
Qed.

Lemma concat_cons (sep x : string) (l : list string) :
  l <> [] -> String.concat sep (x :: l) = (x ++ sep ++ String.concat sep l)%string.
Proof. destruct l; [contradiction|reflexivity]. Qed.

(** Joining the pieces with the separator gives the input back. *)
Lemma genSplit_Join (sep : string) (n : nat) (s : string) :
  Join (genSplit n s sep) sep = s.
Proof.
  unfold Join. revert s.
  induction n as [|n IH]; intros s; simpl; [reflexivity|].
  destruct (Cut s sep) as [[b a]|] eqn:E; [|reflexivity].
  rewrite concat_cons by apply genSplit_not_nil.
  rewrite IH. symmetry. now apply Cut_spec.
Qed.

(** No piece contains the separator, once the loop bound covers the
    input. *)
Lemma genSplit_pieces (sep : string) (n : nat) (s : string) :
  sep <> EmptyString ->
  String.length s <= n ->
  Forall (fun piece => Contains piece sep = false) (genSplit n s sep).
Proof.
  intros Hsep. revert s.
  induction n as [|n IH]; intros s Hn; simpl.
  - destruct s; [|simpl in Hn; lia].
    constructor; [|constructor].
    unfold Contains. now rewrite Cut_empty.
  - destruct (Cut s sep) as [[b a]|] eqn:E.
    + constructor.
      * unfold Contains. now rewrite (Cut_before sep s b a).
      * apply IH. apply Cut_length in E.
        destruct sep; [contradiction|]. simpl in E. lia.
    + constructor; [|constructor].
      unfold Contains. now rewrite E.
Qed.

Lemma Split_Join (s sep : string) : Join (Split s sep) sep = s.
Proof. apply genSplit_Join. Qed.

Lemma Split_pieces (s sep : string) :
  sep <> EmptyString ->
  Forall (fun piece => Contains piece sep = false) (Split s sep).
Proof. intros H. now apply genSplit_pieces. Qed.

Lemma Split_empty (sep : string) :
  sep <> EmptyString -> Split EmptyString sep = [EmptyString].
Proof. reflexivity. Qed.

(** The Go documentation's own cases for [Split], and the formats of the
    program. *)
Example Split_doc_1 : Split "a,b,c" "," = ["a"; "b"; "c"].
Proof. reflexivity. Qed.

Example Split_doc_2 :
  Split "a man a plan a canal panama" "a "
  = [""; "man "; "plan "; "canal panama"].
Proof. reflexivity. Qed.

Example Split_edges : Split ",a,,b," "," = [""; "a"; ""; "b"; ""].
Proof. reflexivity. Qed.

Example Split_no_separator : Split "bug" ", " = ["bug"].
Proof. reflexivity. Qed.

Example Sprintf_PROJ_42 :
  Sprintf "issue in linkedIssues(%s)" ["PROJ-42"]
  = "issue in linkedIssues(PROJ-42)".
Proof. reflexivity. Qed.

End GoStringsFacts.

(** ** Facts about the linear scans *)

Lemma has_In (array : list string) (value : string) :
  has array value = true <-> In value array.
Proof.
  induction array as [|item array IH]; simpl.
  - split; [discriminate|tauto].
  - destruct (String.eqb item value) eqn:E.
    + apply String.eqb_eq in E. tauto.
    + apply String.eqb_neq in E. rewrite IH. tauto.
Qed.

Lemma has_not_In (array : list string) (value : string) :
  has array value = false <-> ~ In value array.
Proof.
  rewrite <- has_In. destruct (has array value); split; congruence.
Qed.

Lemma dashboardSwimlaneAlreadyExists_spec (cs : list swimlane) (name : string) :
  dashboardSwimlaneAlreadyExists cs name = true <->
  exists sw, In sw cs /\ swimlane_Name sw = name.
Proof.
  induction cs as [|sw cs IH]; simpl.
  - split; [discriminate|]. intros [sw [[] _]].
  - destruct (String.eqb (swimlane_Name sw) name) eqn:E.
    + apply String.eqb_eq in E. split; [|reflexivity].
      intros _. exists sw. auto.
    + apply String.eqb_neq in E. rewrite IH.
      split; intros [sw' [Hin Hn]]; exists sw'.
      * auto.
      * destruct Hin as [->|Hin]; [contradiction|auto].
Qed.

Lemma dashboardSwimlaneAlreadyExists_false (cs : list swimlane) (name : string) :
  dashboardSwimlaneAlreadyExists cs name = false <->
  forall sw, In sw cs -> swimlane_Name sw <> name.
Proof.
  split.
  - intros H sw Hin Hn.
    assert (dashboardSwimlaneAlreadyExists cs name = true) as H'
      by (apply dashboardSwimlaneAlreadyExists_spec; eauto).
    congruence.
  - intros H.
    destruct (dashboardSwimlaneAlreadyExists cs name) eqn:E; [|reflexivity].
    apply dashboardSwimlaneAlreadyExists_spec in E.
    destruct E as [sw [Hin Hn]]. now apply H in Hin.
Qed.

(** [getSwimlaneID] answers the identity of the first swimlane with the
    name, and [0] when there is none. *)
Lemma getSwimlaneID_absent (name : string) (cs : list swimlane) :
  (forall sw, In sw cs -> swimlane_Name sw <> name) ->
  getSwimlaneID name cs = 0%Z.
Proof.
  induction cs as [|sw cs IH]; simpl; intros H; [reflexivity|].
  destruct (String.eqb (swimlane_Name sw) name) eqn:E.
  - apply String.eqb_eq in E. exfalso. apply (H sw); auto.
  - apply IH. intros sw' Hin. apply H. auto.
Qed.

Lemma getSwimlaneID_first (name : string) (pre post : list swimlane) (sw : swimlane) :
  Forall (fun x => swimlane_Name x <> name) pre ->
  swimlane_Name sw = name ->
  getSwimlaneID name (pre ++ sw :: post) = swimlane_ID sw.
Proof.
  intros Hpre Hsw.
  induction Hpre as [|x pre Hx _ IH]; simpl.
  - apply String.eqb_eq in Hsw. now rewrite Hsw.
  - apply String.eqb_neq in Hx. now rewrite Hx.
Qed.

Lemma getLabelsFromChangelog_first (pre post : list changelogItem) (item : changelogItem) :
  Forall (fun it => Field it <> labelsFieldID) pre ->
  Field item = labelsFieldID ->
  getLabelsFromChangelog (pre ++ item :: post) =
  (Split (FromString item) ",", Split (ToString item) ",").
Proof.
  intros Hpre Hitem.
  induction Hpre as [|x pre Hx _ IH]; simpl.
  - apply String.eqb_eq in Hitem. now rewrite Hitem.
  - apply String.eqb_neq in Hx. now rewrite Hx.
Qed.

Lemma getLabelsField_loop_first (text : string) (pre post : list field) (f : field) :
  Forall (fun x => field_ID x <> labelsFieldID) pre ->
  field_ID f = labelsFieldID ->
  getLabelsField_loop text (pre ++ f :: post) = field_Text f.
Proof.
  intros Hpre Hf.
  induction Hpre as [|x pre Hx _ IH]; simpl.
  - apply String.eqb_eq in Hf. now rewrite Hf.
  - apply String.eqb_neq in Hx. now rewrite Hx.
Qed.

Lemma getLabelsField_loop_absent (text : string) (fields : list field) :
  Forall (fun x => field_ID x <> labelsFieldID) fields ->
  getLabelsField_loop text fields = text.
Proof.
  intros H. induction H as [|x fields Hx _ IH]; simpl; [reflexivity|].
  apply String.eqb_neq in Hx. now rewrite Hx.
Qed.

(** The two formats of [getSwimlaneName], spelled out. *)
Lemma Sprintf_name (key text : string) :
  Sprintf "<%s> %s" [key; text] = ("<" ++ key ++ "> " ++ text)%string.
Proof.
  cbn. f_equal. induction key as [|c key IH]; cbn; [|now rewrite IH].
  f_equal. f_equal. induction text as [|c text IH]; cbn; [|now rewrite IH].
  reflexivity.
Qed.

Lemma Sprintf_no_summary (key : string) :
  Sprintf "<%s> No summary" [key] = ("<" ++ key ++ "> No summary")%string.
Proof. reflexivity. Qed.

Lemma Sprintf_query (issueKey : string) :
  Sprintf "issue in linkedIssues(%s)" [issueKey]
  = ("issue in linkedIssues(" ++ issueKey ++ ")")%string.
Proof. reflexivity. Qed.

(** ** The decision step, flag by flag *)

(** With the create flag up and the name taken, the guard of line 146
    answers before anything else is looked at. *)
Lemma swimlaneUpdatesFor_guard (needRemove : bool) (i : issue) (cs : list swimlane) :
  dashboardSwimlaneAlreadyExists cs (getSwimlaneName i) = true ->
  swimlaneUpdatesFor true needRemove i cs = zeroSwimlaneUpdates.
Proof. intros H. unfold swimlaneUpdatesFor. now rewrite H. Qed.

Lemma swimlaneUpdatesFor_create (i : issue) (cs : list swimlane) :
  dashboardSwimlaneAlreadyExists cs (getSwimlaneName i) = false ->
  swimlaneUpdatesFor true false i cs =
  mkSwimlaneUpdates 0 (getSwimlaneName i) createAction (getSwimlaneQuery (Key i)).
Proof. intros H. unfold swimlaneUpdatesFor. now rewrite H. Qed.

Lemma swimlaneUpdatesFor_remove (needCreate : bool) (i : issue) (cs : list swimlane) :
  needCreate && dashboardSwimlaneAlreadyExists cs (getSwimlaneName i) = false ->
  swimlaneUpdatesFor needCreate true i cs =
  mkSwimlaneUpdates (getSwimlaneID (getSwimlaneName i) cs)
    (getSwimlaneName i) removeAction "".
Proof. intros H. unfold swimlaneUpdatesFor. now rewrite H. Qed.

Lemma swimlaneUpdatesFor_idle (i : issue) (cs : list swimlane) :
  swimlaneUpdatesFor false false i cs = zeroSwimlaneUpdates.
Proof. reflexivity. Qed.

(** A create decision is only ever taken through line 153: the create
    flag is up, the remove flag is down and the name is free. *)
Lemma swimlaneUpdatesFor_create_inv
  (needCreate needRemove : bool) (i : issue) (cs : list swimlane) :
  Action (swimlaneUpdatesFor needCreate needRemove i cs) = createAction ->
  needCreate = true /\ needRemove = false
  /\ dashboardSwimlaneAlreadyExists cs (getSwimlaneName i) = false
  /\ Name (swimlaneUpdatesFor needCreate needRemove i cs) = getSwimlaneName i.
Proof.
  unfold swimlaneUpdatesFor.
  destruct needCreate, needRemove,
    (dashboardSwimlaneAlreadyExists cs (getSwimlaneName i));
    simpl; intros H; try discriminate H; auto.
Qed.

Section DecisionFacts.

Variable getCurrentDashboard : Z -> dashboard * option error.

(** Once the swimlanes are fetched, [getSwimlaneUpdates] is the decision
    step applied to the values of the two label predicates. *)
Lemma getSwimlaneUpdates_fetched
  (dashboardID : Z) (newIssue : issue) (oldLabels newLabels : list string)
  (currentSwimlanes : list swimlane) :
  getCurrentSwimlanes getCurrentDashboard dashboardID = (currentSwimlanes, None) ->
  getSwimlaneUpdates getCurrentDashboard dashboardID newIssue oldLabels newLabels =
  (swimlaneUpdatesFor
     (isNeedToCreateSwimlane newLabels oldLabels)
     (isNeedToRemoveSwimlane newLabels oldLabels)
     newIssue currentSwimlanes, None).
Proof.
  unfold getSwimlaneUpdates. now intros ->.
Qed.

(** A failed fetch is handed on with the zero-value decision. *)
Lemma getSwimlaneUpdates_failed
  (dashboardID : Z) (newIssue : issue) (oldLabels newLabels : list string)
  (l : list swimlane) (err : error) :
  getCurrentSwimlanes getCurrentDashboard dashboardID = (l, Some err) ->
  getSwimlaneUpdates getCurrentDashboard dashboardID newIssue oldLabels newLabels =
  (zeroSwimlaneUpdates, Some err).
Proof.
  unfold getSwimlaneUpdates. now intros ->.
Qed.

(** C1. When the trigger label "swimline-story" is among the new labels
    and not among the old ones, and a current swimlane already carries
    the name derived from the issue, [getSwimlaneUpdates] answers the
    zero-value decision with a nil error.  Consequently a decision with
    action "create" never carries the name of a swimlane that is
    already on the dashboard. *)
Theorem create_is_idempotent
  (dashboardID : Z) (newIssue : issue) (oldLabels newLabels : list string)
  (currentSwimlanes : list swimlane) :
  getCurrentSwimlanes getCurrentDashboard dashboardID = (currentSwimlanes, None) ->
  (In swimlaneStoryLabel newLabels ->
   ~ In swimlaneStoryLabel oldLabels ->
   (exists sw, In sw currentSwimlanes
               /\ swimlane_Name sw = getSwimlaneName newIssue) ->
   getSwimlaneUpdates getCurrentDashboard dashboardID newIssue oldLabels newLabels
   = (zeroSwimlaneUpdates, None))
  /\
  (Action (fst (getSwimlaneUpdates getCurrentDashboard dashboardID newIssue oldLabels newLabels))
   = createAction ->
   forall sw, In sw currentSwimlanes ->
     swimlane_Name sw
     <> Name (fst (getSwimlaneUpdates getCurrentDashboard dashboardID newIssue oldLabels newLabels))).
Proof.
  intros Hfetch.
  rewrite (getSwimlaneUpdates_fetched _ _ _ _ _ Hfetch). split.
  - intros Hnew Hold Hex.
    apply has_In in Hnew. apply has_not_In in Hold.
    apply dashboardSwimlaneAlreadyExists_spec in Hex.
    unfold isNeedToCreateSwimlane. rewrite Hnew, Hold. simpl.
    now rewrite swimlaneUpdatesFor_guard.
  - simpl. intros Hact.
    apply swimlaneUpdatesFor_create_inv in Hact.
    destruct Hact as (_ & _ & Hfree & ->).
    now apply dashboardSwimlaneAlreadyExists_false.
Qed.

(** C8. When the trigger label is among the old labels and not among
    the new ones, and no current swimlane carries the derived name,
    [getSwimlaneUpdates] answers a decision with action "remove", the
    identity 0 and the derived name, and a nil error. *)
Theorem remove_of_unknown_swimlane
  (dashboardID : Z) (newIssue : issue) (oldLabels newLabels : list string)
  (currentSwimlanes : list swimlane) :
  getCurrentSwimlanes getCurrentDashboard dashboardID = (currentSwimlanes, None) ->
  In swimlaneStoryLabel oldLabels ->
  ~ In swimlaneStoryLabel newLabels ->
  (forall sw, In sw currentSwimlanes ->
     swimlane_Name sw <> getSwimlaneName newIssue) ->
  getSwimlaneUpdates getCurrentDashboard dashboardID newIssue oldLabels newLabels
  = (mkSwimlaneUpdates 0 (getSwimlaneName newIssue) removeAction "", None).
Proof.
  intros Hfetch Hold Hnew Hfree.
  rewrite (getSwimlaneUpdates_fetched _ _ _ _ _ Hfetch).
  apply has_In in Hold. apply has_not_In in Hnew.
  unfold isNeedToCreateSwimlane, isNeedToRemoveSwimlane.
  rewrite Hold, Hnew. simpl.
  rewrite swimlaneUpdatesFor_remove by reflexivity.
  now rewrite getSwimlaneID_absent.
Qed.

(** C4. A changelog without an item for the field "labels" yields two
    empty label lists; with them neither the create nor the remove
    condition holds, so the decision is the zero value: the decision
    component of [getSwimlaneUpdates] is [swimlaneUpdates{}] whatever
    the tracker answers, and the error is nil whenever the swimlanes
    could be fetched. *)
Theorem changelog_without_labels_is_noop
  (items : list changelogItem) (newIssue : issue) :
  Forall (fun item => Field item <> labelsFieldID) items ->
  getLabelsFromChangelog items = ([], [])
  /\ isNeedToCreateSwimlane [] [] = false
  /\ isNeedToRemoveSwimlane [] [] = false
  /\ fst (updatesFromChangelog getCurrentDashboard newIssue
            (mkChangelog (mkChangelogItems items)))
     = zeroSwimlaneUpdates
  /\ (forall dashboardID,
        fst (getSwimlaneUpdates getCurrentDashboard dashboardID newIssue [] [])
        = zeroSwimlaneUpdates)
  /\ (forall dashboardID currentSwimlanes,
        getCurrentSwimlanes getCurrentDashboard dashboardID
        = (currentSwimlanes, None) ->
        getSwimlaneUpdates getCurrentDashboard dashboardID newIssue [] []
        = (zeroSwimlaneUpdates, None)).
Proof.
  intros Hnone.
  assert (getLabelsFromChangelog items = ([], [])) as Hlabels.
  { induction Hnone as [|item items Hitem _ IH]; simpl; [reflexivity|].
    apply String.eqb_neq in Hitem. now rewrite Hitem. }
  assert (forall dashboardID,
            fst (getSwimlaneUpdates getCurrentDashboard dashboardID newIssue [] [])
            = zeroSwimlaneUpdates) as Hzero.
  { intros dashboardID. unfold getSwimlaneUpdates.
    destruct (getCurrentSwimlanes getCurrentDashboard dashboardID)
      as [cs [err|]]; reflexivity. }
  repeat split; auto.
  - unfold updatesFromChangelog. simpl. rewrite Hlabels. apply Hzero.
  - intros dashboardID cs Hfetch.
    now rewrite (getSwimlaneUpdates_fetched _ _ _ _ _ Hfetch).
Qed.

(** C10. Labels are compared with [==], nothing is trimmed.  For the
    changelog item with from-value "other, swimline-story" and to-value
    "other", splitting on "," leaves the element " swimline-story" with
    its leading space; it is not the trigger label, the remove condition
    is false and the decision is the zero value, not a removal.  The
    same item written "other,swimline-story" does meet the remove
    condition. *)
Theorem comma_space_changelog_misses_trigger (newIssue : issue) :
  getLabelsFromChangelog [Scenario.commaSpaceItem]
  = (["other"; " swimline-story"], ["other"])
  /\ has ["other"; " swimline-story"] swimlaneStoryLabel = false
  /\ isNeedToRemoveSwimlane ["other"] ["other"; " swimline-story"] = false
  /\ fst (updatesFromChangelog getCurrentDashboard newIssue
            (Scenario.logOf [Scenario.commaSpaceItem]))
     = zeroSwimlaneUpdates
  /\ Action (fst (updatesFromChangelog getCurrentDashboard newIssue
                    (Scenario.logOf [Scenario.commaSpaceItem])))
     <> removeAction
  /\ getLabelsFromChangelog [Scenario.commaItem]
     = (["other"; "swimline-story"], ["other"])
  /\ isNeedToRemoveSwimlane ["other"] ["other"; "swimline-story"] = true.
Proof.
  assert (fst (updatesFromChangelog getCurrentDashboard newIssue
                 (Scenario.logOf [Scenario.commaSpaceItem]))
          = zeroSwimlaneUpdates) as Hzero.
  { unfold updatesFromChangelog, getSwimlaneUpdates. simpl.
    destruct (getCurrentSwimlanes getCurrentDashboard 0)
      as [cs [err|]]; reflexivity. }
  repeat split; try reflexivity; try exact Hzero.
  rewrite Hzero. discriminate.
Qed.

End DecisionFacts.

(** ** The label predicates and the precedence of the two actions *)

(** C3. The create condition and the remove condition never hold
    together, whatever the two label lists. *)
Theorem create_remove_exclusive (newLabels oldLabels : list string) :
  isNeedToCreateSwimlane newLabels oldLabels
  && isNeedToRemoveSwimlane newLabels oldLabels = false.
Proof.
  unfold isNeedToCreateSwimlane, isNeedToRemoveSwimlane.
  destruct (has newLabels swimlaneStoryLabel),
    (has oldLabels swimlaneStoryLabel); reflexivity.
Qed.


(** ** The label differ *)

(** C5. The changelog path splits the from-value and the to-value of the
    first "labels" item on ","; the field path splits the text of the
    first "labels" field on ", ".  In both cases joining the labels with
    the separator gives the text back and no label contains the
    separator.  The two separators cut the same text differently. *)
Theorem label_separators
  (pre post : list changelogItem) (item : changelogItem)
  (fpre fpost : list field) (f : field) :
  Forall (fun it => Field it <> labelsFieldID) pre ->
  Field item = labelsFieldID ->
  Forall (fun x => field_ID x <> labelsFieldID) fpre ->
  field_ID f = labelsFieldID ->
  getLabelsFromChangelog (pre ++ item :: post)
  = (Split (FromString item) ",", Split (ToString item) ",")
  /\ Join (fst (getLabelsFromChangelog (pre ++ item :: post))) ","
     = FromString item
  /\ Join (snd (getLabelsFromChangelog (pre ++ item :: post))) ","
     = ToString item
  /\ Forall (fun label => Contains label "," = false)
       (fst (getLabelsFromChangelog (pre ++ item :: post)))
  /\ Forall (fun label => Contains label "," = false)
       (snd (getLabelsFromChangelog (pre ++ item :: post)))
  /\ getLabelsField (fpre ++ f :: fpost) = Split (field_Text f) ", "
  /\ Join (getLabelsField (fpre ++ f :: fpost)) ", " = field_Text f
  /\ Forall (fun label => Contains label ", " = false)
       (getLabelsField (fpre ++ f :: fpost))
  /\ Split "a, b" "," = ["a"; " b"]
  /\ Split "a, b" ", " = ["a"; "b"].
Proof.
  intros Hpre Hitem Hfpre Hf.
  rewrite (getLabelsFromChangelog_first pre post item Hpre Hitem).
  unfold getLabelsField.
  rewrite (getLabelsField_loop_first "" fpre fpost f Hfpre Hf).
  simpl fst. simpl snd.
  repeat split;
    try apply GoStringsFacts.Split_Join;
    try (apply GoStringsFacts.Split_pieces; discriminate).
Qed.

(** C6. Without a field "labels", [getLabelsField] answers the list whose
    only element is the empty string: one label, not none. *)
Theorem labels_of_missing_field (fields : list field) :
  Forall (fun x => field_ID x <> labelsFieldID) fields ->
  getLabelsField fields = [EmptyString]
  /\ List.length (getLabelsField fields) = 1.
Proof.
  intros H. unfold getLabelsField.
  rewrite (getLabelsField_loop_absent "" fields H).
  split; reflexivity.
Qed.

(** ** The swimlane namer and the dashboard resolver *)

(** C7. The swimlane name of an issue is "<", the key, "> " and the text
    of the first field with id "summary"; without such a field it is "<",
    the key and "> No summary".  It depends on the issue alone. *)
Theorem swimlane_name_format
  (key : string) (pre post fields : list field) (f : field) :
  Forall (fun x => field_ID x <> summaryFieldID) pre ->
  field_ID f = summaryFieldID ->
  Forall (fun x => field_ID x <> summaryFieldID) fields ->
  getSwimlaneName (mkIssue key (pre ++ f :: post))
  = ("<" ++ key ++ "> " ++ field_Text f)%string
  /\ getSwimlaneName (mkIssue key fields)
     = ("<" ++ key ++ "> No summary")%string.
Proof.
  intros Hpre Hf Hnone. unfold getSwimlaneName. simpl Key. simpl Fields.
  split.
  - induction Hpre as [|x pre Hx _ IH].
    + simpl app. cbv beta iota delta [getSwimlaneName_loop].
      apply String.eqb_eq in Hf. rewrite Hf. apply Sprintf_name.
    + apply String.eqb_neq in Hx. simpl. now rewrite Hx.
  - induction Hnone as [|x fields Hx _ IH].
    + apply Sprintf_no_summary.
    + apply String.eqb_neq in Hx. simpl. now rewrite Hx.
Qed.

(** C9. [getDashboardID] answers 351 when the team label "recycling-nsk"
    is in the list and 0 when it is not. *)
Theorem dashboard_of_labels (newLabels : list string) :
  getDashboardID newLabels
  = if in_dec string_dec recyclingTeamLabel newLabels then 351%Z else 0%Z.
Proof.
  induction newLabels as [|label newLabels IH]; simpl; [reflexivity|].
  destruct (String.eqb label recyclingTeamLabel) eqn:E.
  - apply String.eqb_eq in E.
    destruct (string_dec label recyclingTeamLabel); [reflexivity|contradiction].
  - apply String.eqb_neq in E.
    destruct (string_dec label recyclingTeamLabel); [contradiction|].
    rewrite IH.
    destruct (in_dec string_dec recyclingTeamLabel newLabels); reflexivity.
Qed.

(** ** The theorems at work on the sample data *)

(** Scenario B: the label is added while the swimlane of PROJ-1 is already
    on dashboard 351. *)
Lemma create_is_idempotent_witness :
  getCurrentSwimlanes (Scenario.trackerWith [Scenario.lane7]) 351
  = ([Scenario.lane7], None)
  /\ In swimlaneStoryLabel ["bug"; "swimline-story"]
  /\ ~ In swimlaneStoryLabel ["bug"]
  /\ (exists sw, In sw [Scenario.lane7]
                 /\ swimlane_Name sw = getSwimlaneName Scenario.issue1)
  /\ getSwimlaneUpdates (Scenario.trackerWith [Scenario.lane7]) 351
       Scenario.issue1 ["bug"] ["bug"; "swimline-story"]
     = (zeroSwimlaneUpdates, None).
Proof.
  assert (In swimlaneStoryLabel ["bug"; "swimline-story"]) as Hnew
    by (simpl; auto).
  assert (~ In swimlaneStoryLabel ["bug"]) as Hold
    by (simpl; intros [H|[]]; discriminate H).
  assert (exists sw, In sw [Scenario.lane7]
                     /\ swimlane_Name sw = getSwimlaneName Scenario.issue1)
    as Hex by (exists Scenario.lane7; split; [simpl; auto|reflexivity]).
  refine (conj eq_refl (conj Hnew (conj Hold (conj Hex _)))).
  exact (proj1 (create_is_idempotent
                  (Scenario.trackerWith [Scenario.lane7]) 351
                  Scenario.issue1 ["bug"] ["bug"; "swimline-story"]
                  [Scenario.lane7] eq_refl)
           Hnew Hold Hex).
Defined.

(** Scenario D: the label is removed and dashboard 351 has no swimlane. *)
Lemma remove_of_unknown_swimlane_witness :
  getCurrentSwimlanes (Scenario.trackerWith []) 351 = ([], None)
  /\ In swimlaneStoryLabel ["swimline-story"]
  /\ ~ In swimlaneStoryLabel []
  /\ (forall sw, In sw [] -> swimlane_Name sw <> getSwimlaneName Scenario.issue1)
  /\ getSwimlaneUpdates (Scenario.trackerWith []) 351
       Scenario.issue1 ["swimline-story"] []
     = (mkSwimlaneUpdates 0 "<PROJ-1> Fix crash" "remove" "", None).
Proof.
  assert (In swimlaneStoryLabel ["swimline-story"]) as Hold by (simpl; auto).
  assert (~ In swimlaneStoryLabel []) as Hnew by (simpl; auto).
  assert (forall sw, In sw [] ->
            swimlane_Name sw <> getSwimlaneName Scenario.issue1) as Hfree
    by (intros sw []).
  refine (conj eq_refl (conj Hold (conj Hnew (conj Hfree _)))).
  exact (remove_of_unknown_swimlane (Scenario.trackerWith []) 351
           Scenario.issue1 ["swimline-story"] [] [] eq_refl Hold Hnew Hfree).
Defined.

(** A status change alone: no labels item in the changelog. *)
Lemma changelog_without_labels_is_noop_witness :
  Forall (fun item => Field item <> labelsFieldID) [Scenario.statusItem]
  /\ getLabelsFromChangelog [Scenario.statusItem] = ([], [])
  /\ updatesFromChangelog (Scenario.trackerWith [Scenario.lane7])
       Scenario.issue1 (Scenario.logOf [Scenario.statusItem])
     = (zeroSwimlaneUpdates, None).
Proof.
  assert (Forall (fun item => Field item <> labelsFieldID) [Scenario.statusItem])
    as Hnone by (constructor; [discriminate|constructor]).
  pose proof (changelog_without_labels_is_noop
                (Scenario.trackerWith [Scenario.lane7])
                [Scenario.statusItem] Scenario.issue1 Hnone)
    as (Hlabels & _ & _ & _ & _ & Hdecide).
  refine (conj Hnone (conj Hlabels _)).
  exact (Hdecide 0%Z [Scenario.lane7] eq_refl).
Defined.


(** The labels item after a status item, the labels field before the
    summary. *)
Lemma label_separators_witness :
  Forall (fun it => Field it <> labelsFieldID) [Scenario.statusItem]
  /\ Field Scenario.commaSpaceItem = labelsFieldID
  /\ Forall (fun x => field_ID x <> labelsFieldID) []
  /\ field_ID (mkField "labels" "bug, swimline-story") = labelsFieldID
  /\ getLabelsFromChangelog [Scenario.statusItem; Scenario.commaSpaceItem]
     = (["other"; " swimline-story"], ["other"])
  /\ getLabelsField (Fields Scenario.issue1) = ["bug"; "swimline-story"].
Proof.
  assert (Forall (fun it => Field it <> labelsFieldID) [Scenario.statusItem])
    as Hpre by (constructor; [discriminate|constructor]).
  assert (Forall (fun x => field_ID x <> labelsFieldID) []) as Hfpre
    by constructor.
  pose proof (label_separators [Scenario.statusItem] [] Scenario.commaSpaceItem
                [] [mkField "summary" "Fix crash"]
                (mkField "labels" "bug, swimline-story")
                Hpre eq_refl Hfpre eq_refl)
    as (Hlog & _ & _ & _ & _ & Hfield & _).
  exact (conj Hpre (conj eq_refl (conj Hfpre (conj eq_refl (conj Hlog Hfield))))).
Defined.

(** A field list with the summary alone. *)
Lemma labels_of_missing_field_witness :
  Forall (fun x => field_ID x <> labelsFieldID) [mkField "summary" "Fix crash"]
  /\ getLabelsField [mkField "summary" "Fix crash"] = [EmptyString].
Proof.
  assert (Forall (fun x => field_ID x <> labelsFieldID)
            [mkField "summary" "Fix crash"]) as Hnone
    by (constructor; [discriminate|constructor]).
  split; [exact Hnone|].
  exact (proj1 (labels_of_missing_field [mkField "summary" "Fix crash"] Hnone)).
Defined.

(** PROJ-1 with its summary after the labels, and with the labels alone. *)
Lemma swimlane_name_format_witness :
  Forall (fun x => field_ID x <> summaryFieldID)
    [mkField "labels" "bug, swimline-story"]
  /\ field_ID (mkField "summary" "Fix crash") = summaryFieldID
  /\ getSwimlaneName Scenario.issue1 = "<PROJ-1> Fix crash"
  /\ getSwimlaneName
       (mkIssue "PROJ-1" [mkField "labels" "bug, swimline-story"])
     = "<PROJ-1> No summary".
Proof.
  assert (Forall (fun x => field_ID x <> summaryFieldID)
            [mkField "labels" "bug, swimline-story"]) as Hpre
    by (constructor; [discriminate|constructor]).
  pose proof (swimlane_name_format "PROJ-1"
                [mkField "labels" "bug, swimline-story"] []
                [mkField "labels" "bug, swimline-story"]
                (mkField "summary" "Fix crash")
                Hpre eq_refl Hpre)
    as (Hsummary & Hnone).
  exact (conj Hpre (conj eq_refl (conj Hsummary Hnone))).
Defined.

(** ** Scenarios A, C and E of the specification *)

Example scenario_A :
  getSwimlaneUpdates (Scenario.trackerWith []) 351 Scenario.issue1
    ["bug"] ["bug"; "swimline-story"]
  = (mkSwimlaneUpdates 0 "<PROJ-1> Fix crash" "create"
       "issue in linkedIssues(PROJ-1)", None).
Proof. reflexivity. Qed.

Example scenario_C :
  getSwimlaneUpdates (Scenario.trackerWith [Scenario.lane7]) 351 Scenario.issue1
    ["swimline-story"] []
  = (mkSwimlaneUpdates 7 "<PROJ-1> Fix crash" "remove" "", None).
Proof. reflexivity. Qed.

Example scenario_E :
  getSwimlaneUpdates (Scenario.trackerWith [Scenario.lane7]) 351 Scenario.issue1
    ["x"] ["x"]
  = (zeroSwimlaneUpdates, None).
Proof. reflexivity. Qed.

Example fetch_failure :
  getSwimlaneUpdates
    (fun _ => (mkDashboard (mkCurrentViewConfig []), Some (Cause "timeout")))
    351 Scenario.issue1 ["bug"] ["bug"; "swimline-story"]
  = (zeroSwimlaneUpdates,
     Some (Wrapf (Cause "timeout") "Can not get current swimlanes")).
Proof. reflexivity. Qed.

(** * Further properties of the decision logic *)

(** ** The label predicates *)

(** X1. The two predicates in terms of membership: a swimlane is to be
    created exactly when the trigger label is among the new labels and not
    among the old ones, and removed exactly in the opposite case. *)
Theorem label_predicates_membership (newLabels oldLabels : list string) :
  (isNeedToCreateSwimlane newLabels oldLabels = true
   <-> In swimlaneStoryLabel newLabels /\ ~ In swimlaneStoryLabel oldLabels)
  /\ (isNeedToRemoveSwimlane newLabels oldLabels = true
      <-> ~ In swimlaneStoryLabel newLabels /\ In swimlaneStoryLabel oldLabels).
Proof.
  unfold isNeedToCreateSwimlane, isNeedToRemoveSwimlane.
  rewrite !andb_true_iff, !negb_true_iff, !has_In, !has_not_In.
  tauto.
Qed.

(** X2. Undoing a label change turns a creation into a removal and back:
    the remove condition of a change is the create condition of the
    reverse change.  A change that leaves the labels as they were meets
    neither. *)
Theorem remove_is_create_reversed (newLabels oldLabels : list string) :
  isNeedToRemoveSwimlane newLabels oldLabels
  = isNeedToCreateSwimlane oldLabels newLabels
  /\ isNeedToCreateSwimlane newLabels newLabels = false
  /\ isNeedToRemoveSwimlane newLabels newLabels = false.
Proof.
  unfold isNeedToCreateSwimlane, isNeedToRemoveSwimlane.
  destruct (has newLabels swimlaneStoryLabel),
    (has oldLabels swimlaneStoryLabel); auto.
Qed.

Lemma has_same_members (l l' : list string) (value : string) :
  (forall x, In x l <-> In x l') -> has l value = has l' value.
Proof.
  intros H.
  destruct (has l value) eqn:E, (has l' value) eqn:E'; auto.
  - apply has_In in E. apply has_not_In in E'. now apply H in E.
  - apply has_not_In in E. apply has_In in E'. now apply H in E'.
Qed.

(** X3. Order and repetition of the labels do not matter: label lists
    with the same members give the same two conditions and the same
    dashboard. *)
Theorem labels_are_sets (newLabels newLabels' oldLabels oldLabels' : list string) :
  (forall x, In x newLabels <-> In x newLabels') ->
  (forall x, In x oldLabels <-> In x oldLabels') ->
  isNeedToCreateSwimlane newLabels oldLabels
  = isNeedToCreateSwimlane newLabels' oldLabels'
  /\ isNeedToRemoveSwimlane newLabels oldLabels
     = isNeedToRemoveSwimlane newLabels' oldLabels'
  /\ getDashboardID newLabels = getDashboardID newLabels'.
Proof.
  intros Hnew Hold.
  unfold isNeedToCreateSwimlane, isNeedToRemoveSwimlane.
  rewrite (has_same_members _ _ _ Hnew), (has_same_members _ _ _ Hold).
  repeat split.
  assert (forall l, getDashboardID l
                    = if has l recyclingTeamLabel then 351%Z else 0%Z) as Hid.
  { induction l as [|x l IH]; simpl; [reflexivity|].
    destruct (String.eqb x recyclingTeamLabel); auto. }
  now rewrite !Hid, (has_same_members _ _ _ Hnew).
Qed.

(** ** The swimlane lookup *)

Lemma getSwimlaneID_found (name : string) (cs : list swimlane) :
  dashboardSwimlaneAlreadyExists cs name = true ->
  exists pre sw post,
    cs = pre ++ sw :: post
    /\ Forall (fun x => swimlane_Name x <> name) pre
    /\ swimlane_Name sw = name
    /\ getSwimlaneID name cs = swimlane_ID sw.
Proof.
  induction cs as [|x cs IH]; simpl; [discriminate|].
  destruct (String.eqb (swimlane_Name x) name) eqn:E.
  - intros _. apply String.eqb_eq in E.
    exists [], x, cs. repeat split; auto.
  - intros H. apply String.eqb_neq in E.
    destruct (IH H) as (pre & sw & post & -> & Hpre & Hsw & Hid).
    exists (x :: pre), sw, post. repeat split; auto.
Qed.

(** X4. The two lookups agree.  When the existence check fails the
    identity lookup answers 0; an answer other than 0 is the identity of
    a swimlane of the list that carries the name, the first such one. *)
Theorem lookups_agree (name : string) (cs : list swimlane) :
  (dashboardSwimlaneAlreadyExists cs name = false -> getSwimlaneID name cs = 0%Z)
  /\ (getSwimlaneID name cs <> 0%Z ->
      exists pre sw post,
        cs = pre ++ sw :: post
        /\ Forall (fun x => swimlane_Name x <> name) pre
        /\ swimlane_Name sw = name
        /\ swimlane_ID sw = getSwimlaneID name cs).
Proof.
  split.
  - intros H. apply getSwimlaneID_absent.
    now apply dashboardSwimlaneAlreadyExists_false.
  - intros Hid.
    destruct (dashboardSwimlaneAlreadyExists cs name) eqn:E.
    + destruct (getSwimlaneID_found name cs E)
        as (pre & sw & post & Hcs & Hpre & Hsw & Hsw').
      exists pre, sw, post. auto.
    + exfalso. apply Hid. apply getSwimlaneID_absent.
      now apply dashboardSwimlaneAlreadyExists_false.
Qed.

(** ** The decision of [getSwimlaneUpdates], case by case *)

Section DecisionTable.

Variable getCurrentDashboard : Z -> dashboard * option error.

(** X5. The whole decision table.  Once the swimlanes are fetched the
    error is nil and the decision is a creation exactly when the trigger
    label was added and the derived name is free, a removal exactly when
    the trigger label was taken away, and the zero value in every other
    case; the creation carries identity 0, the name and the linked-issues
    query, the removal the identity found by name, the name and no
    query. *)
Theorem decision_table
  (dashboardID : Z) (newIssue : issue) (oldLabels newLabels : list string)
  (currentSwimlanes : list swimlane) :
  getCurrentSwimlanes getCurrentDashboard dashboardID = (currentSwimlanes, None) ->
  exists u,
    getSwimlaneUpdates getCurrentDashboard dashboardID newIssue oldLabels newLabels
    = (u, None)
    /\ (Action u = createAction
        <-> In swimlaneStoryLabel newLabels
            /\ ~ In swimlaneStoryLabel oldLabels
            /\ forall sw, In sw currentSwimlanes ->
                 swimlane_Name sw <> getSwimlaneName newIssue)
    /\ (Action u = removeAction
        <-> ~ In swimlaneStoryLabel newLabels /\ In swimlaneStoryLabel oldLabels)
    /\ (Action u = createAction ->
        u = mkSwimlaneUpdates 0 (getSwimlaneName newIssue) createAction
              (getSwimlaneQuery (Key newIssue)))
    /\ (Action u = removeAction ->
        u = mkSwimlaneUpdates
              (getSwimlaneID (getSwimlaneName newIssue) currentSwimlanes)
              (getSwimlaneName newIssue) removeAction "")
    /\ (Action u <> createAction -> Action u <> removeAction ->
        u = zeroSwimlaneUpdates).
Proof.
  intros Hfetch.
  rewrite (getSwimlaneUpdates_fetched _ _ _ _ _ _ Hfetch).
  eexists. split; [reflexivity|].
  unfold isNeedToCreateSwimlane, isNeedToRemoveSwimlane, swimlaneUpdatesFor.
  pose proof (has_In newLabels swimlaneStoryLabel) as Hn.
  pose proof (has_In oldLabels swimlaneStoryLabel) as Ho.
  pose proof (dashboardSwimlaneAlreadyExists_false currentSwimlanes
                (getSwimlaneName newIssue)) as He.
  destruct (has newLabels swimlaneStoryLabel),
    (has oldLabels swimlaneStoryLabel),
    (dashboardSwimlaneAlreadyExists currentSwimlanes (getSwimlaneName newIssue));
    simpl; (repeat split); intros;
    try discriminate; try reflexivity; try tauto;
    try (exfalso; intuition congruence);
    try (apply He; reflexivity);
    try (eapply (proj1 He eq_refl); eassumption);
    try (intros Hin; apply Ho in Hin; discriminate Hin);
    try (intros Hin; apply Hn in Hin; discriminate Hin).
Qed.

(** X6. Removal of a known swimlane: when the trigger label was taken
    away and the dashboard has swimlanes of the derived name, the decision
    is the removal of the first of them, by its identity. *)
Theorem remove_of_known_swimlane
  (dashboardID : Z) (newIssue : issue) (oldLabels newLabels : list string)
  (pre post : list swimlane) (sw : swimlane) :
  getCurrentSwimlanes getCurrentDashboard dashboardID
  = (pre ++ sw :: post, None) ->
  In swimlaneStoryLabel oldLabels ->
  ~ In swimlaneStoryLabel newLabels ->
  Forall (fun x => swimlane_Name x <> getSwimlaneName newIssue) pre ->
  swimlane_Name sw = getSwimlaneName newIssue ->
  getSwimlaneUpdates getCurrentDashboard dashboardID newIssue oldLabels newLabels
  = (mkSwimlaneUpdates (swimlane_ID sw) (swimlane_Name sw) removeAction "", None).
Proof.
  intros Hfetch Hold Hnew Hpre Hsw.
  rewrite (getSwimlaneUpdates_fetched _ _ _ _ _ _ Hfetch).
  apply has_In in Hold. apply has_not_In in Hnew.
  unfold isNeedToCreateSwimlane, isNeedToRemoveSwimlane.
  rewrite Hold, Hnew. simpl.
  rewrite swimlaneUpdatesFor_remove by reflexivity.
  rewrite (getSwimlaneID_first _ pre post sw Hpre Hsw).
  now rewrite Hsw.
Qed.

(** X7. A change that neither adds nor takes away the trigger label is
    never acted upon, whatever else happened to the labels and whatever
    the dashboard holds. *)
Theorem unchanged_trigger_is_noop
  (dashboardID : Z) (newIssue : issue) (oldLabels newLabels : list string)
  (currentSwimlanes : list swimlane) :
  getCurrentSwimlanes getCurrentDashboard dashboardID = (currentSwimlanes, None) ->
  (In swimlaneStoryLabel newLabels <-> In swimlaneStoryLabel oldLabels) ->
  getSwimlaneUpdates getCurrentDashboard dashboardID newIssue oldLabels newLabels
  = (zeroSwimlaneUpdates, None).
Proof.
  intros Hfetch Hsame.
  rewrite (getSwimlaneUpdates_fetched _ _ _ _ _ _ Hfetch).
  unfold isNeedToCreateSwimlane, isNeedToRemoveSwimlane.
  rewrite <- !has_In in Hsame.
  destruct (has newLabels swimlaneStoryLabel),
    (has oldLabels swimlaneStoryLabel); try reflexivity.
  - destruct Hsame as [H _]. discriminate (H eq_refl).
  - destruct Hsame as [_ H]. discriminate (H eq_refl).
Qed.

(** X8. A failed dashboard request decides everything: whatever the
    labels and the issue, the decision is the zero value and the error is
    the tracker's, wrapped once with "Can not get current swimlanes". *)
Theorem fetch_error_is_wrapped_once
  (dashboardID : Z) (newIssue : issue) (oldLabels newLabels : list string)
  (d : dashboard) (err : error) :
  getCurrentDashboard dashboardID = (d, Some err) ->
  getSwimlaneUpdates getCurrentDashboard dashboardID newIssue oldLabels newLabels
  = (zeroSwimlaneUpdates, Some (Wrapf err "Can not get current swimlanes")).
Proof.
  intros H. unfold getSwimlaneUpdates, getCurrentSwimlanes. now rewrite H.
Qed.

(** X9. A change of another field only: the changelog has no labels item,
    so dashboard 0 is asked for its swimlanes all the same; the decision
    is the zero value and the error is the one of that request. *)
Theorem other_field_change_asks_dashboard_0
  (newIssue : issue) (items : list changelogItem) :
  Forall (fun item => Field item <> labelsFieldID) items ->
  updatesFromChangelog getCurrentDashboard newIssue
    (mkChangelog (mkChangelogItems items))
  = (zeroSwimlaneUpdates, snd (getCurrentSwimlanes getCurrentDashboard 0)).
Proof.
  intros Hnone.
  assert (getLabelsFromChangelog items = ([], [])) as Hlabels.
  { induction Hnone as [|item items Hitem _ IH]; simpl; [reflexivity|].
    apply String.eqb_neq in Hitem. now rewrite Hitem. }
  unfold updatesFromChangelog. simpl. rewrite Hlabels. simpl.
  unfold getSwimlaneUpdates.
  destruct (getCurrentSwimlanes getCurrentDashboard 0) as [cs [err|]];
    reflexivity.
Qed.

End DecisionTable.

(** X10. The identity 0 of a removal does not tell a missing swimlane
    from a swimlane whose identity is 0: with the trigger label taken
    away, a dashboard without swimlanes and a dashboard that starts with
    an identity-0 swimlane of the derived name give the same decision. *)
Theorem removal_of_identity_0_is_ambiguous
  (tracker tracker' : Z -> dashboard * option error)
  (dashboardID : Z) (newIssue : issue) (oldLabels newLabels : list string)
  (sw : swimlane) (rest : list swimlane) :
  getCurrentSwimlanes tracker dashboardID = ([], None) ->
  getCurrentSwimlanes tracker' dashboardID = (sw :: rest, None) ->
  swimlane_Name sw = getSwimlaneName newIssue ->
  swimlane_ID sw = 0%Z ->
  In swimlaneStoryLabel oldLabels ->
  ~ In swimlaneStoryLabel newLabels ->
  getSwimlaneUpdates tracker dashboardID newIssue oldLabels newLabels
  = getSwimlaneUpdates tracker' dashboardID newIssue oldLabels newLabels.
Proof.
  intros Hnone Hsome Hname Hid Hold Hnew.
  rewrite (getSwimlaneUpdates_fetched _ _ _ _ _ _ Hnone).
  rewrite (getSwimlaneUpdates_fetched _ _ _ _ _ _ Hsome).
  apply has_In in Hold. apply has_not_In in Hnew.
  unfold isNeedToCreateSwimlane, isNeedToRemoveSwimlane.
  rewrite Hold, Hnew. simpl.
  rewrite !swimlaneUpdatesFor_remove by reflexivity.
  simpl. apply String.eqb_eq in Hname. now rewrite Hname, Hid.
Qed.

(** ** The swimlane namer *)

Lemma Contains_char_cons (c g : ascii) (s : string) :
  Contains (String c s) (String g EmptyString)
  = Ascii.eqb c g || Contains s (String g EmptyString).
Proof.
  unfold Contains. rewrite GoStringsFacts.Cut_unfold. simpl.
  destruct (Ascii.eqb c g); [reflexivity|].
  destruct (Cut s (String g EmptyString)) as [[b a]|]; reflexivity.
Qed.

(** A key without [g], followed by [g], marks its own end. *)
Lemma delimited_prefix (g : ascii) (k1 k2 t1 t2 : string) :
  Contains k1 (String g EmptyString) = false ->
  Contains k2 (String g EmptyString) = false ->
  (k1 ++ String g t1 = k2 ++ String g t2)%string ->
  k1 = k2 /\ t1 = t2.
Proof.
  revert k2.
  induction k1 as [|c k1 IH]; intros [|c2 k2] H1 H2 Heq; simpl in Heq.
  - injection Heq as ->. auto.
  - injection Heq as Hc _. subst c2.
    rewrite Contains_char_cons, Ascii.eqb_refl in H2. discriminate.
  - injection Heq as Hc _. subst c.
    rewrite Contains_char_cons, Ascii.eqb_refl in H1. discriminate.
  - injection Heq as Hc Heq. subst c2.
    rewrite Contains_char_cons in H1, H2.
    apply orb_false_iff in H1, H2.
    destruct (IH k2 (proj2 H1) (proj2 H2) Heq) as [-> ->]. auto.
Qed.

Lemma getSwimlaneName_shape (i : issue) :
  exists text, getSwimlaneName i = ("<" ++ Key i ++ "> " ++ text)%string.
Proof.
  unfold getSwimlaneName. generalize (Key i). intros key.
  induction (Fields i) as [|f fields IH]; simpl.
  - exists "No summary". reflexivity.
  - destruct (String.eqb (field_ID f) summaryFieldID); [|exact IH].
    exists (field_Text f). apply Sprintf_name.
Qed.

(** X11. Swimlane names tell issues apart: two issues whose keys do not
    contain ">" have the same swimlane name only if they have the same
    key. *)
Theorem swimlane_name_determines_key (i j : issue) :
  Contains (Key i) ">" = false ->
  Contains (Key j) ">" = false ->
  getSwimlaneName i = getSwimlaneName j ->
  Key i = Key j.
Proof.
  intros Hi Hj Heq.
  destruct (getSwimlaneName_shape i) as [ti Hti].
  destruct (getSwimlaneName_shape j) as [tj Htj].
  rewrite Hti, Htj in Heq. simpl in Heq. injection Heq as Heq.
  now destruct (delimited_prefix ">" _ _ _ _ Hi Hj Heq).
Qed.

Lemma length_append (s t : string) :
  String.length (s ++ t) = String.length s + String.length t.
Proof. induction s as [|c s IH]; simpl; auto. Qed.

Lemma append_cancel_l (p s1 s2 : string) :
  (p ++ s1 = p ++ s2)%string -> s1 = s2.
Proof.
  induction p as [|c p IH]; simpl; intros H; [assumption|].
  injection H as H. now apply IH.
Qed.

Lemma append_cancel_r (s1 s2 t : string) :
  (s1 ++ t = s2 ++ t)%string -> s1 = s2.
Proof.
  revert s2. induction s1 as [|c s1 IH]; intros [|c2 s2] H; simpl in H.
  - reflexivity.
  - exfalso. apply (f_equal String.length) in H.
    simpl in H. rewrite length_append in H. lia.
  - exfalso. apply (f_equal String.length) in H.
    simpl in H. rewrite length_append in H. lia.
  - injection H as -> H. f_equal. now apply IH.
Qed.

(** X12. The query of a swimlane is "issue in linkedIssues(", the key and
    ")"; different keys give different queries. *)
Theorem swimlane_query_format (issueKey issueKey' : string) :
  getSwimlaneQuery issueKey
  = ("issue in linkedIssues(" ++ issueKey ++ ")")%string
  /\ (getSwimlaneQuery issueKey = getSwimlaneQuery issueKey' ->
      issueKey = issueKey').
Proof.
  unfold getSwimlaneQuery. rewrite !Sprintf_query. split; [reflexivity|].
  intros H. apply append_cancel_l in H. now apply append_cancel_r in H.
Qed.

(** ** The label differ *)

(** X13. A labels item never yields an empty list: each of the two lists
    has at least one element, and an empty from-value or to-value (an
    issue that had, or is left with, no label at all) yields the list
    whose only element is the empty string. *)
Theorem changelog_labels_are_never_empty
  (pre post : list changelogItem) (item : changelogItem) :
  Forall (fun it => Field it <> labelsFieldID) pre ->
  Field item = labelsFieldID ->
  fst (getLabelsFromChangelog (pre ++ item :: post)) <> []
  /\ snd (getLabelsFromChangelog (pre ++ item :: post)) <> []
  /\ (FromString item = EmptyString ->
      fst (getLabelsFromChangelog (pre ++ item :: post)) = [EmptyString])
  /\ (ToString item = EmptyString ->
      snd (getLabelsFromChangelog (pre ++ item :: post)) = [EmptyString]).
Proof.
  intros Hpre Hitem.
  rewrite (getLabelsFromChangelog_first pre post item Hpre Hitem). simpl.
  repeat split; try apply GoStringsFacts.genSplit_not_nil; now intros ->.
Qed.

(** * The tracker client *)

(** What the action of a decision tells about the labels. *)
Lemma getSwimlaneUpdates_action_inv
  (tracker : Z -> dashboard * option error)
  (dashboardID : Z) (newIssue : issue) (oldLabels newLabels : list string) :
  let u := fst (getSwimlaneUpdates tracker dashboardID newIssue oldLabels newLabels) in
  (Action u = removeAction ->
   In swimlaneStoryLabel oldLabels /\ ~ In swimlaneStoryLabel newLabels)
  /\ (Action u = createAction ->
      In swimlaneStoryLabel newLabels /\ ~ In swimlaneStoryLabel oldLabels
      /\ u = mkSwimlaneUpdates 0 (getSwimlaneName newIssue) createAction
               (getSwimlaneQuery (Key newIssue))).
Proof.
  unfold getSwimlaneUpdates.
  destruct (getCurrentSwimlanes tracker dashboardID) as [cs [err|]]; simpl.
  - split; discriminate.
  - unfold swimlaneUpdatesFor, isNeedToCreateSwimlane, isNeedToRemoveSwimlane.
    pose proof (has_In newLabels swimlaneStoryLabel) as Hn.
    pose proof (has_In oldLabels swimlaneStoryLabel) as Ho.
    pose proof (has_not_In newLabels swimlaneStoryLabel) as Hn'.
    pose proof (has_not_In oldLabels swimlaneStoryLabel) as Ho'.
    destruct (has newLabels swimlaneStoryLabel),
      (has oldLabels swimlaneStoryLabel),
      (dashboardSwimlaneAlreadyExists cs (getSwimlaneName newIssue));
      simpl; split; intros H; try discriminate H;
      repeat split; try tauto.
Qed.

Module ClientFacts.

Import GoFmt GoJson.

Lemma append_nil_r (s : string) : (s ++ "")%string = s.
Proof. induction s as [|c s IH]; simpl; [reflexivity|now rewrite IH]. Qed.

(** The formats with an [int] operand, spelled out. *)
Lemma Sprintfv_config (base : string) (ID : Z) :
  Sprintfv
    "%s/rest/greenhopper/1.0/xboard/config.json?returnDefaultBoard=false&rapidViewId=%d"
    [OfString base; OfInt ID]
  = (base
     ++ "/rest/greenhopper/1.0/xboard/config.json?returnDefaultBoard=false&rapidViewId="
     ++ Itoa ID)%string.
Proof. cbn [Sprintfv verb_s verb_d append]. now rewrite append_nil_r. Qed.

Lemma Sprintfv_remove (base : string) (dashboardID swimlaneID : Z) :
  Sprintfv "%s/rest/greenhopper/1.0/swimlanes/%d/%d"
    [OfString base; OfInt dashboardID; OfInt swimlaneID]
  = (base ++ "/rest/greenhopper/1.0/swimlanes/" ++ Itoa dashboardID
     ++ "/" ++ Itoa swimlaneID)%string.
Proof. cbn [Sprintfv verb_s verb_d append]. now rewrite append_nil_r. Qed.

Lemma Sprintfv_create (base : string) (dashboardID : Z) :
  Sprintfv "%s/rest/greenhopper/1.0/swimlanes/%d/"
    [OfString base; OfInt dashboardID]
  = (base ++ "/rest/greenhopper/1.0/swimlanes/" ++ Itoa dashboardID ++ "/")%string.
Proof. reflexivity. Qed.

Lemma Sprintfv_dashboard_error (ID : Z) :
  Sprintfv "Can not get current dashboard %d" [OfInt ID]
  = ("Can not get current dashboard " ++ Itoa ID)%string.
Proof. cbn [Sprintfv verb_s verb_d append]. now rewrite append_nil_r. Qed.

Section Env.

Variable env : environment.

Ltac run :=
  unfold Client.login, Client.Post, Client.NewRequest, Client.Do,
    Client.HeaderAdd, bind, ret in *;
  simpl in *.

Ltac branch :=
  match goal with
  | |- context [match ?x with _ => _ end] => destruct x eqn:?
  end.

(** X14. [login] hands at most one request to the HTTP client, the POST
    of the marshalled credentials to the login URI with content type
    application/json; it succeeds only after handing it; and each of its
    errors is the cause wrapped with "Auth failed". *)
Theorem login_outcome (log : list Request) :
  (snd (Client.login env log) = log
   \/ snd (Client.login env log) = log ++ [ClientSpec.loginRequest env])
  /\ (snd (fst (Client.login env log)) = None ->
      snd (Client.login env log) = log ++ [ClientSpec.loginRequest env])
  /\ (forall err, snd (fst (Client.login env log)) = Some err ->
        exists cause, err = Wrapf cause "Auth failed").
Proof.
  unfold ClientSpec.loginRequest. run.
  destruct (MarshalMap env _) as [request [err|]] eqn:Hm; simpl.
  - repeat split; auto; try discriminate.
    intros e [= <-]. now exists err.
  - destruct (ParseError env (loginURI env)) as [err|] eqn:Hp; simpl.
    + repeat split; auto; try discriminate.
      intros e [= <-]. now exists err.
    + repeat branch; simpl; repeat split; auto; try discriminate;
        intros err' [= <-]; eexists; reflexivity.
Qed.

Lemma login_log (log : list Request) :
  snd (Client.login env log) = log
  \/ snd (Client.login env log) = log ++ [ClientSpec.loginRequest env].
Proof.
  unfold ClientSpec.loginRequest. run.
  destruct (MarshalMap env _) as [request [err|]] eqn:Hm; simpl; auto.
  destruct (ParseError env (loginURI env)) as [err|] eqn:Hp; simpl; auto.
  repeat branch; simpl; auto.
Qed.

(** X15. A failed login ends each of the three helpers: the error is
    passed on as it is, with no body, and no request of the helper is
    handed to the HTTP client. *)
Theorem login_error_ends_the_helpers
  (uri data : string) (log log1 : list Request) (auth : authData) (err : error) :
  Client.login env log = ((auth, Some err), log1) ->
  Client.getFromJiraAPI env uri log = ((EmptyString, Some err), log1)
  /\ Client.postToJiraAPI env uri data log = ((EmptyString, Some err), log1)
  /\ Client.deleteFromJiraAPI env uri log = (Some err, log1).
Proof.
  intros H.
  unfold Client.getFromJiraAPI, Client.postToJiraAPI, Client.deleteFromJiraAPI,
    bind.
  rewrite H. auto.
Qed.

(** X16. [deleteFromJiraAPI] does not look at the response: once the
    login succeeded and the URI parses, every reply of the tracker,
    whatever its status code and body, gives a nil error.  The request is
    a DELETE of the URI with the session cookie and the no-check token. *)
Theorem delete_accepts_every_reply
  (uri : string) (log log1 : list Request) (auth : authData)
  (response : Response) :
  Client.login env log = ((auth, None), log1) ->
  ParseError env uri = None ->
  RoundTrip env log1 (ClientSpec.sessionRequest "DELETE" uri None auth) = Reply response ->
  Client.deleteFromJiraAPI env uri log
  = (None, log1 ++ [ClientSpec.sessionRequest "DELETE" uri None auth])
  /\ Header (ClientSpec.sessionRequest "DELETE" uri None auth)
     = [("Cookie", (session_Name (Session auth) ++ "="
                    ++ session_Value (Session auth))%string);
        ("X-Atlassian-Token", "no-check")].
Proof.
  intros Hlogin Hparse Hreply.
  unfold Client.deleteFromJiraAPI, bind. rewrite Hlogin.
  unfold Client.NewRequest. rewrite Hparse.
  unfold Client.Do, ret. unfold ClientSpec.sessionRequest in *. rewrite Hreply.
  split; [reflexivity|].
  simpl. rewrite append_nil_r. reflexivity.
Qed.

(** X17. [getFromJiraAPI] hands back the body of every reply that can be
    read, whatever the status code: an HTTP error status is not an
    error. *)
Theorem get_returns_every_readable_body
  (uri : string) (log log1 : list Request) (auth : authData)
  (status : Z) (body : string) :
  Client.login env log = ((auth, None), log1) ->
  ParseError env uri = None ->
  RoundTrip env log1 (ClientSpec.sessionRequest "GET" uri None auth)
  = Reply (mkResponse status (body, None)) ->
  Client.getFromJiraAPI env uri log
  = ((body, None), log1 ++ [ClientSpec.sessionRequest "GET" uri None auth]).
Proof.
  intros Hlogin Hparse Hreply.
  unfold Client.getFromJiraAPI, bind. rewrite Hlogin.
  unfold Client.NewRequest. rewrite Hparse.
  unfold Client.Do, ret. unfold ClientSpec.sessionRequest in *. now rewrite Hreply.
Qed.

(** *** The requests of each function *)

Lemma getFromJiraAPI_log (uri : string) (log : list Request) :
  exists rs,
    snd (Client.getFromJiraAPI env uri log) = log ++ rs
    /\ Forall (fun r => r = (ClientSpec.loginRequest env)
                        \/ (Method r = "GET" /\ URL r = uri)) rs.
Proof.
  unfold Client.getFromJiraAPI, bind.
  pose proof (login_log log) as Hlog.
  destruct (Client.login env log) as [[auth [err|]] log1] eqn:Hl;
    simpl in Hlog.
  - destruct Hlog as [-> | ->]; simpl.
    + exists []. rewrite app_nil_r. auto.
    + exists [ClientSpec.loginRequest env]. auto.
  - assert (exists rs0, log1 = log ++ rs0
                        /\ Forall (fun r => r = (ClientSpec.loginRequest env)
                                            \/ (Method r = "GET" /\ URL r = uri))
                             rs0) as (rs0 & -> & Hrs0).
    { destruct Hlog as [-> | ->].
      - exists []. rewrite app_nil_r. auto.
      - exists [ClientSpec.loginRequest env]. auto. }
    unfold Client.NewRequest.
    destruct (ParseError env uri) as [perr|]; simpl.
    + exists rs0. auto.
    + unfold Client.Do, ret.
      exists (rs0 ++ [Client.withSession (mkRequest "GET" uri [] None) auth]).
      split.
      * repeat branch; simpl; now rewrite app_assoc.
      * apply Forall_app. split; [assumption|].
        constructor; [|constructor]. right. split; reflexivity.
Qed.

Lemma deleteFromJiraAPI_log (uri : string) (log : list Request) :
  exists rs,
    snd (Client.deleteFromJiraAPI env uri log) = log ++ rs
    /\ Forall (fun r => r = (ClientSpec.loginRequest env)
                        \/ (Method r = "DELETE" /\ URL r = uri)) rs.
Proof.
  unfold Client.deleteFromJiraAPI, bind.
  pose proof (login_log log) as Hlog.
  destruct (Client.login env log) as [[auth [err|]] log1] eqn:Hl;
    simpl in Hlog.
  - destruct Hlog as [-> | ->]; simpl.
    + exists []. rewrite app_nil_r. auto.
    + exists [ClientSpec.loginRequest env]. auto.
  - assert (exists rs0, log1 = log ++ rs0
                        /\ Forall (fun r => r = (ClientSpec.loginRequest env)
                                            \/ (Method r = "DELETE" /\ URL r = uri))
                             rs0) as (rs0 & -> & Hrs0).
    { destruct Hlog as [-> | ->].
      - exists []. rewrite app_nil_r. auto.
      - exists [ClientSpec.loginRequest env]. auto. }
    unfold Client.NewRequest.
    destruct (ParseError env uri) as [perr|]; simpl.
    + exists rs0. auto.
    + unfold Client.Do, ret.
      exists (rs0 ++ [Client.withSession (mkRequest "DELETE" uri [] None) auth]).
      split.
      * repeat branch; simpl; now rewrite app_assoc.
      * apply Forall_app. split; [assumption|].
        constructor; [|constructor]. right. split; reflexivity.
Qed.

Lemma postToJiraAPI_log (uri data : string) (log : list Request) :
  exists rs,
    snd (Client.postToJiraAPI env uri data log) = log ++ rs
    /\ Forall (fun r => r = (ClientSpec.loginRequest env)
                        \/ (Method r = "POST" /\ URL r = uri
                            /\ Body r = Some (fst (MarshalBytes data))
                            /\ In ("X-Atlassian-Token", "no-check") (Header r)))
         rs.
Proof.
  unfold Client.postToJiraAPI, bind.
  pose proof (login_log log) as Hlog.
  destruct (Client.login env log) as [[auth [err|]] log1] eqn:Hl;
    simpl in Hlog.
  - destruct Hlog as [-> | ->]; simpl.
    + exists []. rewrite app_nil_r. auto.
    + exists [ClientSpec.loginRequest env]. auto.
  - assert (exists rs0, log1 = log ++ rs0
                        /\ Forall (fun r => r = (ClientSpec.loginRequest env)
                                            \/ (Method r = "POST" /\ URL r = uri
                                                /\ Body r = Some (fst (MarshalBytes data))
                                                /\ In ("X-Atlassian-Token", "no-check")
                                                     (Header r)))
                             rs0) as (rs0 & -> & Hrs0).
    { destruct Hlog as [-> | ->].
      - exists []. rewrite app_nil_r. auto.
      - exists [ClientSpec.loginRequest env]. auto. }
    unfold MarshalBytes, Client.NewRequest.
    destruct (ParseError env uri) as [perr|]; simpl.
    + exists rs0. auto.
    + unfold Client.Do, ret.
      exists (rs0 ++ [Client.withSession
                        (mkRequest "POST" uri []
                           (Some (String quote
                                    (EncodeToString data ++ String quote EmptyString))))
                        auth]).
      split.
      * repeat branch; simpl; now rewrite app_assoc.
      * apply Forall_app. split; [assumption|].
        constructor; [|constructor]. right.
        repeat split. simpl. auto.
Qed.

Lemma getCurrentDashboard_log (ID : Z) (log : list Request) :
  exists rs,
    snd (Client.getCurrentDashboard env ID log) = log ++ rs
    /\ Forall (fun r => r = (ClientSpec.loginRequest env)
                        \/ (Method r = "GET" /\ URL r = ClientSpec.configURI env ID)) rs.
Proof.
  unfold Client.getCurrentDashboard, bind. rewrite Sprintfv_config.
  destruct (getFromJiraAPI_log (ClientSpec.configURI env ID) log) as (rs & Hlog & Hrs).
  unfold ClientSpec.configURI in *.
  destruct (Client.getFromJiraAPI env _ log) as [[body [err|]] log1];
    simpl in *; eauto.
Qed.

Lemma removeSwimlane_log (dashboardID swimlaneID : Z) (log : list Request) :
  exists rs,
    snd (Client.removeSwimlane env dashboardID swimlaneID log) = log ++ rs
    /\ Forall (fun r => r = (ClientSpec.loginRequest env)
                        \/ (Method r = "DELETE"
                            /\ URL r = ClientSpec.swimlaneURI env dashboardID swimlaneID)) rs.
Proof.
  unfold Client.removeSwimlane. rewrite Sprintfv_remove.
  apply deleteFromJiraAPI_log.
Qed.

Lemma createSwimlane_log
  (dashboardID : Z) (updates : swimlaneUpdates) (log : list Request) :
  exists rs,
    snd (Client.createSwimlane env dashboardID updates log) = log ++ rs
    /\ Forall (fun r => r = (ClientSpec.loginRequest env)
                        \/ (Method r = "POST"
                            /\ URL r = ClientSpec.swimlanesURI env dashboardID
                            /\ Body r = Some (ClientSpec.creationBody env updates)
                            /\ In ("X-Atlassian-Token", "no-check") (Header r)))
         rs.
Proof.
  unfold Client.createSwimlane, ClientSpec.creationBody. rewrite Sprintfv_create.
  destruct (MarshalMap env _) as [body [err|]]; simpl.
  - exists []. rewrite app_nil_r. auto.
  - unfold bind.
    destruct (postToJiraAPI_log (ClientSpec.swimlanesURI env dashboardID) body log)
      as (rs & Hlog & Hrs).
    unfold ClientSpec.swimlanesURI in *.
    destruct (Client.postToJiraAPI env _ body log) as [[result err] log1];
      simpl in *; eauto.
Qed.

(** *** [updateDashboardIfNeed] *)

(** X18. When the login of the dashboard request fails,
    [updateDashboardIfNeed] returns the login error wrapped twice, with
    "Can not get current dashboard" and the number of the dashboard
    resolved from the new labels, then with "Can not get current
    swimlanes"; nothing is handed to the HTTP client after the login. *)
Theorem login_error_aborts_the_update
  (newIssue : issue) (log : changelog) (requests requests1 : list Request)
  (auth : authData) (err : error) :
  Client.login env requests = ((auth, Some err), requests1) ->
  Client.updateDashboardIfNeed env newIssue log requests
  = (Some (Wrapf
             (Wrapf err
                ("Can not get current dashboard "
                 ++ Itoa (getDashboardID
                            (snd (getLabelsFromChangelog (Items (Dataset log)))))))
             "Can not get current swimlanes"),
     requests1).
Proof.
  intros Hlogin.
  unfold Client.updateDashboardIfNeed.
  destruct (getLabelsFromChangelog (Items (Dataset log))) as [old new]. simpl.
  unfold bind, Client.getSwimlaneUpdates, getSwimlaneUpdates,
    getCurrentSwimlanes, Client.getCurrentDashboard, bind,
    Client.getFromJiraAPI, bind.
  rewrite Sprintfv_dashboard_error, Hlogin. reflexivity.
Qed.

(** The decision is taken on the dashboard that the tracker answered. *)
Lemma getSwimlaneUpdates_run
  (dashboardID : Z) (newIssue : issue) (oldLabels newLabels : list string)
  (requests requests1 : list Request) (d : dashboard) :
  Client.getCurrentDashboard env dashboardID requests = ((d, None), requests1) ->
  Client.getSwimlaneUpdates env dashboardID newIssue oldLabels newLabels requests
  = ((swimlaneUpdatesFor
        (isNeedToCreateSwimlane newLabels oldLabels)
        (isNeedToRemoveSwimlane newLabels oldLabels)
        newIssue (Swimlanes (CurrentViewConfig d)), None),
     requests1).
Proof.
  intros H. unfold Client.getSwimlaneUpdates. rewrite H. simpl.
  rewrite (getSwimlaneUpdates_fetched _ _ _ _ _ (Swimlanes (CurrentViewConfig d)));
    [reflexivity|].
  unfold getCurrentSwimlanes. now rewrite H.
Qed.

(** X19. The error of a creation is dropped.  When the trigger label was
    added and the dashboard has no swimlane of the derived name,
    [updateDashboardIfNeed] runs [createSwimlane] for the resolved
    dashboard and returns nil whatever [createSwimlane] returns. *)
Theorem creation_error_is_dropped
  (newIssue : issue) (items : list changelogItem)
  (oldLabels newLabels : list string)
  (requests requests1 : list Request) (d : dashboard) :
  getLabelsFromChangelog items = (oldLabels, newLabels) ->
  Client.getCurrentDashboard env (getDashboardID newLabels) requests
  = ((d, None), requests1) ->
  In swimlaneStoryLabel newLabels ->
  ~ In swimlaneStoryLabel oldLabels ->
  (forall sw, In sw (Swimlanes (CurrentViewConfig d)) ->
     swimlane_Name sw <> getSwimlaneName newIssue) ->
  Client.updateDashboardIfNeed env newIssue
    (mkChangelog (mkChangelogItems items)) requests
  = (None,
     snd (Client.createSwimlane env (getDashboardID newLabels)
            (mkSwimlaneUpdates 0 (getSwimlaneName newIssue) createAction
               (getSwimlaneQuery (Key newIssue)))
            requests1)).
Proof.
  intros Hlabels Hfetch Hnew Hold Hfree.
  unfold Client.updateDashboardIfNeed. simpl. rewrite Hlabels.
  unfold bind at 1. rewrite (getSwimlaneUpdates_run _ _ _ _ _ _ _ Hfetch).
  apply has_In in Hnew. apply has_not_In in Hold.
  apply dashboardSwimlaneAlreadyExists_false in Hfree.
  unfold isNeedToCreateSwimlane, isNeedToRemoveSwimlane.
  rewrite Hnew, Hold. simpl.
  rewrite swimlaneUpdatesFor_create by assumption. simpl.
  unfold bind, ret.
  now destruct (Client.createSwimlane env _ _ requests1).
Qed.

(** X20. The error of a removal is returned.  When the trigger label was
    taken away, [updateDashboardIfNeed] ends with [removeSwimlane] for
    the resolved dashboard and the identity found by name (0 when there is
    no such swimlane), and returns what it returns. *)
Theorem removal_result_is_returned
  (newIssue : issue) (items : list changelogItem)
  (oldLabels newLabels : list string)
  (requests requests1 : list Request) (d : dashboard) :
  getLabelsFromChangelog items = (oldLabels, newLabels) ->
  Client.getCurrentDashboard env (getDashboardID newLabels) requests
  = ((d, None), requests1) ->
  In swimlaneStoryLabel oldLabels ->
  ~ In swimlaneStoryLabel newLabels ->
  Client.updateDashboardIfNeed env newIssue
    (mkChangelog (mkChangelogItems items)) requests
  = Client.removeSwimlane env (getDashboardID newLabels)
      (getSwimlaneID (getSwimlaneName newIssue) (Swimlanes (CurrentViewConfig d)))
      requests1.
Proof.
  intros Hlabels Hfetch Hold Hnew.
  unfold Client.updateDashboardIfNeed. simpl. rewrite Hlabels.
  unfold bind at 1. rewrite (getSwimlaneUpdates_run _ _ _ _ _ _ _ Hfetch).
  apply has_In in Hold. apply has_not_In in Hnew.
  unfold isNeedToCreateSwimlane, isNeedToRemoveSwimlane.
  rewrite Hnew, Hold. cbn [negb andb].
  now rewrite swimlaneUpdatesFor_remove by reflexivity.
Qed.

(** X21. Nothing but the dashboard is requested, and nil is returned,
    when the trigger label did not change or when it was added while a
    swimlane of the derived name is on the dashboard. *)
Theorem no_action_without_need
  (newIssue : issue) (items : list changelogItem)
  (oldLabels newLabels : list string)
  (requests requests1 : list Request) (d : dashboard) :
  getLabelsFromChangelog items = (oldLabels, newLabels) ->
  Client.getCurrentDashboard env (getDashboardID newLabels) requests
  = ((d, None), requests1) ->
  (In swimlaneStoryLabel newLabels <-> In swimlaneStoryLabel oldLabels)
  \/ (In swimlaneStoryLabel newLabels
      /\ exists sw, In sw (Swimlanes (CurrentViewConfig d))
                    /\ swimlane_Name sw = getSwimlaneName newIssue) ->
  Client.updateDashboardIfNeed env newIssue
    (mkChangelog (mkChangelogItems items)) requests
  = (None, requests1).
Proof.
  intros Hlabels Hfetch Hcase.
  unfold Client.updateDashboardIfNeed. simpl. rewrite Hlabels.
  unfold bind at 1. rewrite (getSwimlaneUpdates_run _ _ _ _ _ _ _ Hfetch).
  unfold isNeedToCreateSwimlane, isNeedToRemoveSwimlane.
  destruct Hcase as [Hsame | (Hnew & Hex)].
  - rewrite <- !has_In in Hsame.
    destruct (has newLabels swimlaneStoryLabel),
      (has oldLabels swimlaneStoryLabel); try reflexivity.
    + destruct Hsame as [H _]. discriminate (H eq_refl).
    + destruct Hsame as [_ H]. discriminate (H eq_refl).
  - apply has_In in Hnew.
    apply dashboardSwimlaneAlreadyExists_spec in Hex.
    rewrite Hnew.
    destruct (has oldLabels swimlaneStoryLabel); cbn [negb andb].
    + now rewrite swimlaneUpdatesFor_idle.
    + now rewrite swimlaneUpdatesFor_guard.
Qed.

(** Every request of [updateDashboardIfNeed], by kind. *)
Lemma updateDashboardIfNeed_requests
  (newIssue : issue) (log : changelog) (requests : list Request) :
  exists rs,
    snd (Client.updateDashboardIfNeed env newIssue log requests) = requests ++ rs
    /\ Forall
         (fun r =>
            r = (ClientSpec.loginRequest env)
            \/ (Method r = "GET"
                /\ URL r = (ClientSpec.configURI env)
                             (getDashboardID
                                (snd (getLabelsFromChangelog (Items (Dataset log))))))
            \/ (Method r = "DELETE"
                /\ In swimlaneStoryLabel
                     (fst (getLabelsFromChangelog (Items (Dataset log))))
                /\ ~ In swimlaneStoryLabel
                       (snd (getLabelsFromChangelog (Items (Dataset log))))
                /\ exists swimlaneID,
                     URL r = (ClientSpec.swimlaneURI env)
                               (getDashboardID
                                  (snd (getLabelsFromChangelog (Items (Dataset log)))))
                               swimlaneID)
            \/ (Method r = "POST"
                /\ In swimlaneStoryLabel
                     (snd (getLabelsFromChangelog (Items (Dataset log))))
                /\ ~ In swimlaneStoryLabel
                       (fst (getLabelsFromChangelog (Items (Dataset log))))
                /\ URL r = (ClientSpec.swimlanesURI env)
                             (getDashboardID
                                (snd (getLabelsFromChangelog (Items (Dataset log)))))
                /\ Body r = Some ((ClientSpec.creationBody env)
                                    (mkSwimlaneUpdates 0 (getSwimlaneName newIssue)
                                       createAction
                                       (getSwimlaneQuery (Key newIssue))))
                /\ In ("X-Atlassian-Token", "no-check") (Header r)))
         rs.
Proof.
  unfold Client.updateDashboardIfNeed.
  destruct (getLabelsFromChangelog (Items (Dataset log))) as [old new].
  cbn [fst snd].
  set (dash := getDashboardID new).
  unfold bind at 1, Client.getSwimlaneUpdates.
  destruct (getCurrentDashboard_log dash requests) as (rs1 & H1 & F1).
  pose proof (getSwimlaneUpdates_action_inv
                (fun ID => fst (Client.getCurrentDashboard env ID requests))
                dash newIssue old new) as [Hrem Hcre].
  destruct (getSwimlaneUpdates
              (fun ID => fst (Client.getCurrentDashboard env ID requests))
              dash newIssue old new) as [u [err|]]; cbn [fst] in Hrem, Hcre.
  - exists rs1. split; [exact H1|].
    eapply Forall_impl; [|exact F1]. intros r [H|H]; auto.
  - destruct (String.eqb (Action u) removeAction) eqn:E1.
    + apply String.eqb_eq in E1. destruct (Hrem E1) as [Hold Hnew].
      destruct (removeSwimlane_log dash (ID u)
                  (snd (Client.getCurrentDashboard env dash requests)))
        as (rs2 & H2 & F2).
      exists (rs1 ++ rs2). split.
      * rewrite H2, H1. now rewrite app_assoc.
      * apply Forall_app. split.
        -- eapply Forall_impl; [|exact F1]. intros r [H|H]; auto.
        -- eapply Forall_impl; [|exact F2]. intros r [H|[Hm Hu]]; auto.
           right. right. left. eauto.
    + destruct (String.eqb (Action u) createAction) eqn:E2.
      * apply String.eqb_eq in E2. destruct (Hcre E2) as (Hnew & Hold & ->).
        destruct (createSwimlane_log dash
                    (mkSwimlaneUpdates 0 (getSwimlaneName newIssue) createAction
                       (getSwimlaneQuery (Key newIssue)))
                    (snd (Client.getCurrentDashboard env dash requests)))
          as (rs2 & H2 & F2).
        exists (rs1 ++ rs2). split.
        -- unfold bind, ret.
           destruct (Client.createSwimlane env dash _
                       (snd (Client.getCurrentDashboard env dash requests)))
             as [res l] eqn:Hc.
           simpl in *. rewrite H2, H1. now rewrite app_assoc.
        -- apply Forall_app. split.
           ++ eapply Forall_impl; [|exact F1]. intros r [H|H]; auto.
           ++ eapply Forall_impl; [|exact F2].
              intros r [H|(Hm & Hu & Hb & Hh)]; auto.
              right. right. right. repeat split; auto.
      * exists rs1. split; [exact H1|].
        eapply Forall_impl; [|exact F1]. intros r [H|H]; auto.
Qed.

(** X22. [updateDashboardIfNeed] deletes only what lost the trigger
    label: a DELETE among the requests it hands to the HTTP client means
    that the changelog has the trigger label among the old labels and not
    among the new ones, and the request goes to a swimlane of the
    dashboard resolved from the new labels. *)
Theorem deletes_only_on_label_removal
  (newIssue : issue) (log : changelog) (requests : list Request) :
  exists rs,
    snd (Client.updateDashboardIfNeed env newIssue log requests) = requests ++ rs
    /\ forall r, In r rs -> Method r = "DELETE" ->
         In swimlaneStoryLabel
           (fst (getLabelsFromChangelog (Items (Dataset log))))
         /\ ~ In swimlaneStoryLabel
                (snd (getLabelsFromChangelog (Items (Dataset log))))
         /\ exists swimlaneID,
              URL r = (ClientSpec.swimlaneURI env)
                        (getDashboardID
                           (snd (getLabelsFromChangelog (Items (Dataset log)))))
                        swimlaneID.
Proof.
  destruct (updateDashboardIfNeed_requests newIssue log requests)
    as (rs & Hlog & Hrs).
  exists rs. split; [exact Hlog|].
  intros r Hin Hmethod.
  rewrite Forall_forall in Hrs.
  destruct (Hrs r Hin) as [-> | [[Hm _] | [(_ & Hold & Hnew & Hurl) | [Hm _]]]].
  - discriminate Hmethod.
  - rewrite Hm in Hmethod. discriminate Hmethod.
  - auto.
  - rewrite Hm in Hmethod. discriminate Hmethod.
Qed.

Lemma EncodeToString_length (n : nat) (src : string) :
  String.length src <= n ->
  String.length src <= String.length (EncodeToString src).
Proof.
  revert src. induction n as [|n IH]; intros src Hn.
  - destruct src; simpl in *; lia.
  - destruct src as [|a [|b [|c src]]]; simpl in *; try lia.
    assert (String.length src <= String.length (EncodeToString src))
      by (apply IH; lia).
    lia.
Qed.

(** X23. [updateDashboardIfNeed] creates only for an added trigger label:
    a POST other than the login means that the changelog has the trigger
    label among the new labels and not among the old ones; it goes to the
    swimlanes of the resolved dashboard, and its body is a JSON string,
    the base64 text of the marshalled name and query between quotation
    marks, never the marshalled object itself. *)
Theorem creates_only_on_label_addition
  (newIssue : issue) (log : changelog) (requests : list Request) :
  exists rs,
    snd (Client.updateDashboardIfNeed env newIssue log requests) = requests ++ rs
    /\ forall r, In r rs -> Method r = "POST" -> r <> (ClientSpec.loginRequest env) ->
         In swimlaneStoryLabel
           (snd (getLabelsFromChangelog (Items (Dataset log))))
         /\ ~ In swimlaneStoryLabel
                (fst (getLabelsFromChangelog (Items (Dataset log))))
         /\ URL r = (ClientSpec.swimlanesURI env)
                      (getDashboardID
                         (snd (getLabelsFromChangelog (Items (Dataset log)))))
         /\ Body r
            = Some (String quote
                      (EncodeToString
                         (fst (MarshalMap env
                                 [("name", getSwimlaneName newIssue);
                                  ("query", getSwimlaneQuery (Key newIssue))]))
                       ++ String quote EmptyString))
         /\ Body r
            <> Some (fst (MarshalMap env
                            [("name", getSwimlaneName newIssue);
                             ("query", getSwimlaneQuery (Key newIssue))])).
Proof.
  destruct (updateDashboardIfNeed_requests newIssue log requests)
    as (rs & Hlog & Hrs).
  exists rs. split; [exact Hlog|].
  intros r Hin Hmethod Hnot.
  rewrite Forall_forall in Hrs.
  destruct (Hrs r Hin)
    as [-> | [[Hm _] | [[Hm _] | (_ & Hnew & Hold & Hurl & Hbody & _)]]].
  - contradiction.
  - rewrite Hm in Hmethod. discriminate Hmethod.
  - rewrite Hm in Hmethod. discriminate Hmethod.
  - repeat split; auto.
    rewrite Hbody. unfold ClientSpec.creationBody. simpl Name. simpl Query.
    intros [= H]. apply (f_equal String.length) in H.
    simpl in H. rewrite length_append in H. simpl in H.
    pose proof (EncodeToString_length _
                  (fst (MarshalMap env
                          [("name", getSwimlaneName newIssue);
                           ("query", getSwimlaneQuery (Key newIssue))]))
                  (le_n _)).
    lia.
Qed.

Lemma getDashboardID_absent (newLabels : list string) :
  ~ In recyclingTeamLabel newLabels -> getDashboardID newLabels = 0%Z.
Proof.
  induction newLabels as [|label newLabels IH]; simpl; intros H; [reflexivity|].
  destruct (String.eqb label recyclingTeamLabel) eqn:E.
  - apply String.eqb_eq in E. exfalso. auto.
  - apply IH. auto.
Qed.

(** X28. The dashboard is resolved from the new labels alone.  When the
    team label "recycling-nsk" is not among them (also when it was taken
    away by the same change), every request of [updateDashboardIfNeed]
    other than a login is addressed to dashboard 0: its configuration,
    one of its swimlanes, or its list of swimlanes. *)
Theorem changes_without_team_label_go_to_dashboard_0
  (newIssue : issue) (log : changelog) (requests : list Request) :
  ~ In recyclingTeamLabel (snd (getLabelsFromChangelog (Items (Dataset log)))) ->
  exists rs,
    snd (Client.updateDashboardIfNeed env newIssue log requests) = requests ++ rs
    /\ forall r, In r rs ->
         r = ClientSpec.loginRequest env
         \/ (Method r = "GET" /\ URL r = ClientSpec.configURI env 0)
         \/ (Method r = "DELETE"
             /\ exists swimlaneID, URL r = ClientSpec.swimlaneURI env 0 swimlaneID)
         \/ (Method r = "POST" /\ URL r = ClientSpec.swimlanesURI env 0).
Proof.
  intros Hteam. apply getDashboardID_absent in Hteam.
  destruct (updateDashboardIfNeed_requests newIssue log requests)
    as (rs & Hlog & Hrs).
  rewrite Hteam in Hrs.
  exists rs. split; [exact Hlog|].
  intros r Hin. rewrite Forall_forall in Hrs.
  destruct (Hrs r Hin)
    as [H | [[Hm Hu] | [(Hm & _ & _ & Hu) | (Hm & _ & _ & Hu & _)]]]; auto.
Qed.

Lemma Sprintf_issue (base key : string) :
  Sprintf
    "%s/rest/greenhopper/1.0/xboard/issue/details.json?rapidViewId=368&issueIdOrKey=%s"
    [base; key]
  = (base
     ++ "/rest/greenhopper/1.0/xboard/issue/details.json?rapidViewId=368&issueIdOrKey="
     ++ key)%string.
Proof. cbn [Sprintf append]. now rewrite append_nil_r. Qed.

(** X24. The two fetches do not check what they decode.  After a
    successful login, every reply whose body can be read, whatever its
    status code, makes [getCurrentDashboard] and [getCurrentIssue] return
    the decoded value with a nil error; the dashboard is asked for by its
    number, the issue by its key on board 368. *)
Theorem fetched_replies_are_not_checked
  (ID : Z) (key : string) (requests requests1 : list Request) (auth : authData)
  (status status' : Z) (body body' : string) :
  Client.login env requests = ((auth, None), requests1) ->
  ParseError env (ClientSpec.configURI env ID) = None ->
  ParseError env (ClientSpec.issueURI env key) = None ->
  RoundTrip env requests1 (ClientSpec.sessionRequest "GET" (ClientSpec.configURI env ID) None auth)
  = Reply (mkResponse status (body, None)) ->
  RoundTrip env requests1 (ClientSpec.sessionRequest "GET" (ClientSpec.issueURI env key) None auth)
  = Reply (mkResponse status' (body', None)) ->
  Client.getCurrentDashboard env ID requests
  = ((UnmarshalDashboard env body, None),
     requests1 ++ [ClientSpec.sessionRequest "GET" (ClientSpec.configURI env ID) None auth])
  /\ Client.getCurrentIssue env key requests
     = ((UnmarshalIssue env body', None),
        requests1 ++ [ClientSpec.sessionRequest "GET" (ClientSpec.issueURI env key) None auth]).
Proof.
  intros Hlogin Hpd Hpi Hd Hi.
  unfold Client.getCurrentDashboard, Client.getCurrentIssue.
  rewrite Sprintfv_config, Sprintf_issue.
  fold (ClientSpec.configURI env ID). fold (ClientSpec.issueURI env key).
  unfold bind, Client.getFromJiraAPI, bind. rewrite Hlogin.
  unfold Client.NewRequest. rewrite Hpd, Hpi.
  unfold Client.Do, ret. unfold ClientSpec.sessionRequest in *.
  now rewrite Hd, Hi.
Qed.

End Env.

End ClientFacts.

(** * The earlier revision *)

Section EarlierRevision.

Variable getCurrentDashboard : Z -> dashboard * option error.

(** X25. The two revisions decide alike on the same swimlanes.  Each
    revision fetches the dashboard through its own helpers, which do not
    wrap errors the same way, so the two fetches are two trackers here
    and errors are not compared: when both fetches succeed with the same
    swimlanes, the earlier [getSwimlaneUpdates] returns, with a nil
    error, the decision of the later one on the labels that
    [getLabelsField] reads off the two snapshots, less the identity. *)
Theorem revisions_decide_alike
  (earlier later : Z -> dashboard * option error)
  (dashboardID : Z) (newIssue oldIssue : issue)
  (currentSwimlanes : list swimlane) :
  getCurrentSwimlanes earlier dashboardID = (currentSwimlanes, None) ->
  getCurrentSwimlanes later dashboardID = (currentSwimlanes, None) ->
  JiraApi.getSwimlaneUpdates earlier dashboardID newIssue oldIssue
  = (withoutID
       (fst (getSwimlaneUpdates later dashboardID newIssue
               (getLabelsField (Fields oldIssue))
               (getLabelsField (Fields newIssue)))),
     None)
  /\ snd (getSwimlaneUpdates later dashboardID newIssue
            (getLabelsField (Fields oldIssue))
            (getLabelsField (Fields newIssue)))
     = None.
Proof.
  intros Hearlier Hlater.
  unfold JiraApi.getSwimlaneUpdates, getSwimlaneUpdates.
  rewrite Hearlier, Hlater.
  unfold swimlaneUpdatesFor. cbn [fst snd].
  destruct (isNeedToCreateSwimlane _ _), (isNeedToRemoveSwimlane _ _),
    (dashboardSwimlaneAlreadyExists currentSwimlanes (getSwimlaneName newIssue));
    split; reflexivity.
Qed.

(** X26. The earlier [updateDashboardIfNeed] never acts on the decision:
    whatever the two snapshots, it returns the error of the fetch of the
    swimlanes and nothing else. *)
Theorem earlier_update_only_fetches
  (oldIssue newIssue : issue) (dashboardID : Z) :
  JiraApi.updateDashboardIfNeed getCurrentDashboard oldIssue newIssue dashboardID
  = snd (getCurrentSwimlanes getCurrentDashboard dashboardID).
Proof.
  unfold JiraApi.updateDashboardIfNeed, JiraApi.getSwimlaneUpdates.
  destruct (getCurrentSwimlanes getCurrentDashboard dashboardID)
    as [cs [err|]]; [reflexivity|].
  cbn [snd].
  repeat match goal with
         | |- context [if ?b then _ else _] => destruct b
         end; reflexivity.
Qed.

(** X27. In the earlier revision a snapshot without a labels field counts
    as an issue without the trigger label: when the old snapshot has no
    labels field, the swimlanes are fetched and the name is free, the
    decision is a creation exactly when the labels field of the new
    snapshot, cut at ", ", holds the trigger label. *)
Theorem first_labels_of_an_issue
  (dashboardID : Z) (newIssue oldIssue : issue)
  (currentSwimlanes : list swimlane) :
  getCurrentSwimlanes getCurrentDashboard dashboardID = (currentSwimlanes, None) ->
  Forall (fun x => field_ID x <> labelsFieldID) (Fields oldIssue) ->
  (forall sw, In sw currentSwimlanes ->
     swimlane_Name sw <> getSwimlaneName newIssue) ->
  JiraApi.getSwimlaneUpdates getCurrentDashboard dashboardID newIssue oldIssue
  = (if in_dec string_dec swimlaneStoryLabel (getLabelsField (Fields newIssue))
     then JiraApi.mkSwimlaneUpdates (getSwimlaneName newIssue) createAction
            (getSwimlaneQuery (Key newIssue))
     else JiraApi.zeroSwimlaneUpdates,
     None).
Proof.
  intros Hfetch Hold Hfree.
  unfold JiraApi.getSwimlaneUpdates. rewrite Hfetch.
  assert (getLabelsField (Fields oldIssue) = [EmptyString]) as ->.
  { unfold getLabelsField.
    now rewrite (getLabelsField_loop_absent "" _ Hold). }
  apply dashboardSwimlaneAlreadyExists_false in Hfree. rewrite Hfree.
  unfold isNeedToCreateSwimlane, isNeedToRemoveSwimlane.
  destruct (in_dec string_dec swimlaneStoryLabel
              (getLabelsField (Fields newIssue))) as [Hin|Hout].
  - apply has_In in Hin. rewrite Hin. reflexivity.
  - apply has_not_In in Hout. rewrite Hout. reflexivity.
Qed.

End EarlierRevision.

(** * The further properties at work on the sample data *)

Lemma label_predicates_membership_witness :
  (In swimlaneStoryLabel ["bug"; "swimline-story"]
   /\ ~ In swimlaneStoryLabel ["bug"])
  /\ isNeedToCreateSwimlane ["bug"; "swimline-story"] ["bug"] = true.
Proof.
  assert (In swimlaneStoryLabel ["bug"; "swimline-story"]
          /\ ~ In swimlaneStoryLabel ["bug"]) as H.
  { split; [simpl; auto|]. simpl. intros [H|[]]. discriminate H. }
  split; [exact H|].
  exact (proj2 (proj1 (label_predicates_membership
                         ["bug"; "swimline-story"] ["bug"])) H).
Defined.

(** The same labels, reordered and repeated. *)
Lemma labels_are_sets_witness :
  (forall x, In x ["recycling-nsk"; "swimline-story"]
             <-> In x ["swimline-story"; "recycling-nsk"; "swimline-story"])
  /\ (forall x, In x ["bug"] <-> In x ["bug"; "bug"])
  /\ getDashboardID ["recycling-nsk"; "swimline-story"]
     = getDashboardID ["swimline-story"; "recycling-nsk"; "swimline-story"].
Proof.
  assert (forall x, In x ["recycling-nsk"; "swimline-story"]
                    <-> In x ["swimline-story"; "recycling-nsk"; "swimline-story"])
    as Hnew by (intros x; simpl; tauto).
  assert (forall x, In x ["bug"] <-> In x ["bug"; "bug"]) as Hold
    by (intros x; simpl; tauto).
  refine (conj Hnew (conj Hold _)).
  exact (proj2 (proj2 (labels_are_sets _ _ _ _ Hnew Hold))).
Defined.

(** A dashboard with two swimlanes of the same name: the first one is
    found. *)
Lemma lookups_agree_witness :
  getSwimlaneID "<PROJ-1> Fix crash"
    [Scenario.lane7; mkSwimlane 9 "<PROJ-1> Fix crash" "" ""] <> 0%Z
  /\ exists pre sw post,
       [Scenario.lane7; mkSwimlane 9 "<PROJ-1> Fix crash" "" ""]
       = pre ++ sw :: post
       /\ Forall (fun x => swimlane_Name x <> "<PROJ-1> Fix crash") pre
       /\ swimlane_Name sw = "<PROJ-1> Fix crash"
       /\ swimlane_ID sw
          = getSwimlaneID "<PROJ-1> Fix crash"
              [Scenario.lane7; mkSwimlane 9 "<PROJ-1> Fix crash" "" ""].
Proof.
  assert (getSwimlaneID "<PROJ-1> Fix crash"
            [Scenario.lane7; mkSwimlane 9 "<PROJ-1> Fix crash" "" ""] <> 0%Z)
    as H by (simpl; discriminate).
  split; [exact H|].
  exact (proj2 (lookups_agree "<PROJ-1> Fix crash"
                  [Scenario.lane7; mkSwimlane 9 "<PROJ-1> Fix crash" "" ""]) H).
Defined.

(** Scenario A, through the decision table. *)
Lemma decision_table_witness :
  getCurrentSwimlanes (Scenario.trackerWith []) 351 = ([], None)
  /\ exists u,
       getSwimlaneUpdates (Scenario.trackerWith []) 351 Scenario.issue1
         ["bug"] ["bug"; "swimline-story"] = (u, None)
       /\ (Action u = createAction ->
           u = mkSwimlaneUpdates 0 (getSwimlaneName Scenario.issue1) createAction
                 (getSwimlaneQuery (Key Scenario.issue1))).
Proof.
  split; [reflexivity|].
  destruct (decision_table (Scenario.trackerWith []) 351 Scenario.issue1
              ["bug"] ["bug"; "swimline-story"] [] eq_refl)
    as (u & Hu & _ & _ & Hcreate & _).
  exists u. split; assumption.
Defined.

(** Scenario C with a second swimlane of the same name behind the
    first. *)
Lemma remove_of_known_swimlane_witness :
  getCurrentSwimlanes
    (Scenario.trackerWith
       [Scenario.lane7; mkSwimlane 9 "<PROJ-1> Fix crash" "" ""]) 351
  = ([] ++ Scenario.lane7 :: [mkSwimlane 9 "<PROJ-1> Fix crash" "" ""], None)
  /\ In swimlaneStoryLabel ["swimline-story"]
  /\ ~ In swimlaneStoryLabel []
  /\ getSwimlaneUpdates
       (Scenario.trackerWith
          [Scenario.lane7; mkSwimlane 9 "<PROJ-1> Fix crash" "" ""])
       351 Scenario.issue1 ["swimline-story"] []
     = (mkSwimlaneUpdates 7 "<PROJ-1> Fix crash" removeAction "", None).
Proof.
  assert (In swimlaneStoryLabel ["swimline-story"]) as Hold by (simpl; auto).
  assert (~ In swimlaneStoryLabel []) as Hnew by (simpl; auto).
  refine (conj eq_refl (conj Hold (conj Hnew _))).
  exact (remove_of_known_swimlane
           (Scenario.trackerWith
              [Scenario.lane7; mkSwimlane 9 "<PROJ-1> Fix crash" "" ""])
           351 Scenario.issue1 ["swimline-story"] []
           [] [mkSwimlane 9 "<PROJ-1> Fix crash" "" ""] Scenario.lane7
           eq_refl Hold Hnew (Forall_nil _) eq_refl).
Defined.

(** The trigger label stays while another label goes. *)
Lemma unchanged_trigger_is_noop_witness :
  getCurrentSwimlanes (Scenario.trackerWith []) 351 = ([], None)
  /\ (In swimlaneStoryLabel ["swimline-story"]
      <-> In swimlaneStoryLabel ["bug"; "swimline-story"])
  /\ getSwimlaneUpdates (Scenario.trackerWith []) 351 Scenario.issue1
       ["bug"; "swimline-story"] ["swimline-story"]
     = (zeroSwimlaneUpdates, None).
Proof.
  assert (In swimlaneStoryLabel ["swimline-story"]
          <-> In swimlaneStoryLabel ["bug"; "swimline-story"]) as Hsame
    by (simpl; tauto).
  refine (conj eq_refl (conj Hsame _)).
  exact (unchanged_trigger_is_noop (Scenario.trackerWith []) 351
           Scenario.issue1 ["bug"; "swimline-story"] ["swimline-story"] []
           eq_refl Hsame).
Defined.

Lemma fetch_error_is_wrapped_once_witness :
  (fun _ : Z => (mkDashboard (mkCurrentViewConfig []), Some (Cause "timeout")))
    351%Z
  = (mkDashboard (mkCurrentViewConfig []), Some (Cause "timeout"))
  /\ getSwimlaneUpdates
       (fun _ => (mkDashboard (mkCurrentViewConfig []), Some (Cause "timeout")))
       351 Scenario.issue1 ["bug"] ["bug"; "swimline-story"]
     = (zeroSwimlaneUpdates,
        Some (Wrapf (Cause "timeout") "Can not get current swimlanes")).
Proof.
  split; [reflexivity|].
  exact (fetch_error_is_wrapped_once
           (fun _ => (mkDashboard (mkCurrentViewConfig []), Some (Cause "timeout")))
           351 Scenario.issue1 ["bug"] ["bug"; "swimline-story"]
           (mkDashboard (mkCurrentViewConfig [])) (Cause "timeout") eq_refl).
Defined.

Lemma other_field_change_asks_dashboard_0_witness :
  Forall (fun item => Field item <> labelsFieldID) [Scenario.statusItem]
  /\ updatesFromChangelog
       (fun ID => (mkDashboard (mkCurrentViewConfig []),
                   if Z.eqb ID 0 then Some (Cause "no such board") else None))
       Scenario.issue1 (Scenario.logOf [Scenario.statusItem])
     = (zeroSwimlaneUpdates,
        Some (Wrapf (Cause "no such board") "Can not get current swimlanes")).
Proof.
  assert (Forall (fun item => Field item <> labelsFieldID) [Scenario.statusItem])
    as Hnone by (constructor; [discriminate|constructor]).
  split; [exact Hnone|].
  exact (other_field_change_asks_dashboard_0
           (fun ID => (mkDashboard (mkCurrentViewConfig []),
                       if Z.eqb ID 0 then Some (Cause "no such board") else None))
           Scenario.issue1 [Scenario.statusItem] Hnone).
Defined.

Lemma removal_of_identity_0_is_ambiguous_witness :
  swimlane_ID (mkSwimlane 0 "<PROJ-1> Fix crash" "" "") = 0%Z
  /\ In swimlaneStoryLabel ["swimline-story"]
  /\ ~ In swimlaneStoryLabel []
  /\ getSwimlaneUpdates (Scenario.trackerWith []) 351 Scenario.issue1
       ["swimline-story"] []
     = getSwimlaneUpdates
         (Scenario.trackerWith [mkSwimlane 0 "<PROJ-1> Fix crash" "" ""])
         351 Scenario.issue1 ["swimline-story"] [].
Proof.
  assert (In swimlaneStoryLabel ["swimline-story"]) as Hold by (simpl; auto).
  assert (~ In swimlaneStoryLabel []) as Hnew by (simpl; auto).
  refine (conj eq_refl (conj Hold (conj Hnew _))).
  exact (removal_of_identity_0_is_ambiguous
           (Scenario.trackerWith [])
           (Scenario.trackerWith [mkSwimlane 0 "<PROJ-1> Fix crash" "" ""])
           351 Scenario.issue1 ["swimline-story"] []
           (mkSwimlane 0 "<PROJ-1> Fix crash" "" "") []
           eq_refl eq_refl eq_refl eq_refl Hold Hnew).
Defined.

(** Two snapshots of PROJ-1 with the same summary. *)
Lemma swimlane_name_determines_key_witness :
  Contains (Key Scenario.issue1) ">" = false
  /\ getSwimlaneName Scenario.issue1
     = getSwimlaneName (mkIssue "PROJ-1" [mkField "summary" "Fix crash"])
  /\ Key Scenario.issue1 = Key (mkIssue "PROJ-1" [mkField "summary" "Fix crash"]).
Proof.
  refine (conj eq_refl (conj eq_refl _)).
  exact (swimlane_name_determines_key Scenario.issue1
           (mkIssue "PROJ-1" [mkField "summary" "Fix crash"])
           eq_refl eq_refl eq_refl).
Defined.

Lemma swimlane_query_format_witness :
  getSwimlaneQuery "PROJ-42" = "issue in linkedIssues(PROJ-42)".
Proof.
  exact (proj1 (swimlane_query_format "PROJ-42" "PROJ-42")).
Defined.

(** The first label an issue ever gets. *)
Lemma changelog_labels_are_never_empty_witness :
  Forall (fun it => Field it <> labelsFieldID) [Scenario.statusItem]
  /\ Field (mkChangelogItem "swimline-story" "" "labels") = labelsFieldID
  /\ FromString (mkChangelogItem "swimline-story" "" "labels") = EmptyString
  /\ fst (getLabelsFromChangelog
            ([Scenario.statusItem]
             ++ mkChangelogItem "swimline-story" "" "labels" :: []))
     = [EmptyString].
Proof.
  assert (Forall (fun it => Field it <> labelsFieldID) [Scenario.statusItem])
    as Hpre by (constructor; [discriminate|constructor]).
  refine (conj Hpre (conj eq_refl (conj eq_refl _))).
  exact (proj1 (proj2 (proj2 (changelog_labels_are_never_empty
                                [Scenario.statusItem] []
                                (mkChangelogItem "swimline-story" "" "labels")
                                Hpre eq_refl)))
           eq_refl).
Defined.

(** ** The client against the sample trackers *)

Lemma login_outcome_witness :
  snd (fst (Client.login Sample.offline []))
  = Some (Wrapf (Cause "dial tcp: connection refused") "Auth failed")
  /\ exists cause,
       Wrapf (Cause "dial tcp: connection refused") "Auth failed"
       = Wrapf cause "Auth failed".
Proof.
  split; [reflexivity|].
  exact (proj2 (proj2 (ClientFacts.login_outcome Sample.offline []))
           (Wrapf (Cause "dial tcp: connection refused") "Auth failed")
           eq_refl).
Defined.

Lemma login_error_ends_the_helpers_witness :
  Client.login Sample.offline []
  = ((zeroAuthData,
      Some (Wrapf (Cause "dial tcp: connection refused") "Auth failed")),
     [ClientSpec.loginRequest Sample.offline])
  /\ Client.deleteFromJiraAPI Sample.offline
       "https://jira.example/rest/greenhopper/1.0/swimlanes/351/7" []
     = (Some (Wrapf (Cause "dial tcp: connection refused") "Auth failed"),
        [ClientSpec.loginRequest Sample.offline]).
Proof.
  split; [reflexivity|].
  exact (proj2 (proj2 (ClientFacts.login_error_ends_the_helpers Sample.offline
                         "https://jira.example/rest/greenhopper/1.0/swimlanes/351/7"
                         EmptyString [] _ _ _ eq_refl))).
Defined.

(** A DELETE answered with 404 Not Found. *)
Lemma delete_accepts_every_reply_witness :
  Client.login Sample.boardWithLane7 []
  = ((Sample.token, None), [ClientSpec.loginRequest Sample.boardWithLane7])
  /\ ParseError Sample.boardWithLane7 "https://jira.example/gone" = None
  /\ RoundTrip Sample.boardWithLane7
       [ClientSpec.loginRequest Sample.boardWithLane7]
       (ClientSpec.sessionRequest "DELETE" "https://jira.example/gone" None
          Sample.token)
     = Reply (mkResponse 404 ("Not Found", None))
  /\ Client.deleteFromJiraAPI Sample.boardWithLane7 "https://jira.example/gone" []
     = (None,
        [ClientSpec.loginRequest Sample.boardWithLane7]
        ++ [ClientSpec.sessionRequest "DELETE" "https://jira.example/gone" None
              Sample.token]).
Proof.
  refine (conj eq_refl (conj eq_refl (conj eq_refl _))).
  exact (proj1 (ClientFacts.delete_accepts_every_reply Sample.boardWithLane7
                  "https://jira.example/gone" [] _ Sample.token
                  (mkResponse 404 ("Not Found", None))
                  eq_refl eq_refl eq_refl)).
Defined.

(** A GET answered with 500 and a body. *)
Lemma get_returns_every_readable_body_witness :
  Client.login Sample.boardWithLane7 []
  = ((Sample.token, None), [ClientSpec.loginRequest Sample.boardWithLane7])
  /\ ParseError Sample.boardWithLane7 "https://jira.example/any" = None
  /\ RoundTrip Sample.boardWithLane7
       [ClientSpec.loginRequest Sample.boardWithLane7]
       (ClientSpec.sessionRequest "GET" "https://jira.example/any" None
          Sample.token)
     = Reply (mkResponse 500 ("lane7", None))
  /\ Client.getFromJiraAPI Sample.boardWithLane7 "https://jira.example/any" []
     = (("lane7", None),
        [ClientSpec.loginRequest Sample.boardWithLane7]
        ++ [ClientSpec.sessionRequest "GET" "https://jira.example/any" None
              Sample.token]).
Proof.
  refine (conj eq_refl (conj eq_refl (conj eq_refl _))).
  exact (ClientFacts.get_returns_every_readable_body Sample.boardWithLane7
           "https://jira.example/any" [] _ Sample.token 500 "lane7"
           eq_refl eq_refl eq_refl).
Defined.

Lemma login_error_aborts_the_update_witness :
  Client.login Sample.offline []
  = ((zeroAuthData,
      Some (Wrapf (Cause "dial tcp: connection refused") "Auth failed")),
     [ClientSpec.loginRequest Sample.offline])
  /\ Client.updateDashboardIfNeed Sample.offline Scenario.issue1
       Sample.labelsAdded []
     = (Some (Wrapf
                (Wrapf
                   (Wrapf (Cause "dial tcp: connection refused") "Auth failed")
                   "Can not get current dashboard 351")
                "Can not get current swimlanes"),
        [ClientSpec.loginRequest Sample.offline]).
Proof.
  split; [reflexivity|].
  exact (ClientFacts.login_error_aborts_the_update Sample.offline
           Scenario.issue1 Sample.labelsAdded [] _ _ _ eq_refl).
Defined.

(** The trigger label is added, the creation fails with "broken pipe",
    and the update returns nil. *)
Lemma creation_error_is_dropped_witness :
  getLabelsFromChangelog (Items (Dataset Sample.labelsAdded))
  = (["recycling-nsk"], ["recycling-nsk"; "swimline-story"])
  /\ Client.getCurrentDashboard Sample.emptyBoard 351 []
     = ((mkDashboard (mkCurrentViewConfig []), None),
        [ClientSpec.loginRequest Sample.emptyBoard;
         ClientSpec.sessionRequest "GET"
           (ClientSpec.configURI Sample.emptyBoard 351) None Sample.token])
  /\ In swimlaneStoryLabel ["recycling-nsk"; "swimline-story"]
  /\ ~ In swimlaneStoryLabel ["recycling-nsk"]
  /\ fst (Client.createSwimlane Sample.emptyBoard 351
            (mkSwimlaneUpdates 0 (getSwimlaneName Scenario.issue1) createAction
               (getSwimlaneQuery (Key Scenario.issue1)))
            [ClientSpec.loginRequest Sample.emptyBoard;
             ClientSpec.sessionRequest "GET"
               (ClientSpec.configURI Sample.emptyBoard 351) None Sample.token])
     = Some (Wrapf (Cause "broken pipe")
               "Jira api request failed https://jira.example/rest/greenhopper/1.0/swimlanes/351/")
  /\ fst (Client.updateDashboardIfNeed Sample.emptyBoard Scenario.issue1
            Sample.labelsAdded [])
     = None.
Proof.
  assert (In swimlaneStoryLabel ["recycling-nsk"; "swimline-story"]) as Hnew
    by (simpl; auto).
  assert (~ In swimlaneStoryLabel ["recycling-nsk"]) as Hold
    by (simpl; intros [H|[]]; discriminate H).
  refine (conj eq_refl (conj eq_refl (conj Hnew (conj Hold (conj eq_refl _))))).
  exact (f_equal fst
           (ClientFacts.creation_error_is_dropped Sample.emptyBoard
              Scenario.issue1 (Items (Dataset Sample.labelsAdded))
              ["recycling-nsk"] ["recycling-nsk"; "swimline-story"]
              [] _ (mkDashboard (mkCurrentViewConfig []))
              eq_refl eq_refl Hnew Hold (fun sw (H : In sw []) => match H with end))).
Defined.

(** The trigger label is taken away and the swimlane of PROJ-1 is
    removed. *)
Lemma removal_result_is_returned_witness :
  getLabelsFromChangelog (Items (Dataset Sample.labelsRemoved))
  = (["recycling-nsk"; "swimline-story"], ["recycling-nsk"])
  /\ In swimlaneStoryLabel ["recycling-nsk"; "swimline-story"]
  /\ ~ In swimlaneStoryLabel ["recycling-nsk"]
  /\ Client.updateDashboardIfNeed Sample.boardWithLane7 Scenario.issue1
       Sample.labelsRemoved []
     = Client.removeSwimlane Sample.boardWithLane7 351 7
         [ClientSpec.loginRequest Sample.boardWithLane7;
          ClientSpec.sessionRequest "GET"
            (ClientSpec.configURI Sample.boardWithLane7 351) None Sample.token].
Proof.
  assert (In swimlaneStoryLabel ["recycling-nsk"; "swimline-story"]) as Hold
    by (simpl; auto).
  assert (~ In swimlaneStoryLabel ["recycling-nsk"]) as Hnew
    by (simpl; intros [H|[]]; discriminate H).
  refine (conj eq_refl (conj Hold (conj Hnew _))).
  exact (ClientFacts.removal_result_is_returned Sample.boardWithLane7
           Scenario.issue1 (Items (Dataset Sample.labelsRemoved))
           ["recycling-nsk"; "swimline-story"] ["recycling-nsk"]
           [] _ (mkDashboard (mkCurrentViewConfig [Scenario.lane7]))
           eq_refl eq_refl Hold Hnew).
Defined.

(** The trigger label is added while the swimlane is there already. *)
Lemma no_action_without_need_witness :
  getLabelsFromChangelog (Items (Dataset Sample.labelsAdded))
  = (["recycling-nsk"], ["recycling-nsk"; "swimline-story"])
  /\ In swimlaneStoryLabel ["recycling-nsk"; "swimline-story"]
  /\ Client.updateDashboardIfNeed Sample.boardWithLane7 Scenario.issue1
       Sample.labelsAdded []
     = (None,
        [ClientSpec.loginRequest Sample.boardWithLane7;
         ClientSpec.sessionRequest "GET"
           (ClientSpec.configURI Sample.boardWithLane7 351) None Sample.token]).
Proof.
  assert (In swimlaneStoryLabel ["recycling-nsk"; "swimline-story"]) as Hnew
    by (simpl; auto).
  refine (conj eq_refl (conj Hnew _)).
  apply (ClientFacts.no_action_without_need Sample.boardWithLane7
           Scenario.issue1 (Items (Dataset Sample.labelsAdded))
           ["recycling-nsk"] ["recycling-nsk"; "swimline-story"]
           [] _ (mkDashboard (mkCurrentViewConfig [Scenario.lane7]))
           eq_refl eq_refl).
  right. split; [exact Hnew|].
  exists Scenario.lane7. split; [simpl; auto|reflexivity].
Defined.

Lemma deletes_only_on_label_removal_witness :
  exists rs,
    snd (Client.updateDashboardIfNeed Sample.boardWithLane7 Scenario.issue1
           Sample.labelsRemoved []) = [] ++ rs
    /\ forall r, In r rs -> Method r = "DELETE" ->
         In swimlaneStoryLabel ["recycling-nsk"; "swimline-story"]
         /\ ~ In swimlaneStoryLabel ["recycling-nsk"]
         /\ exists swimlaneID,
              URL r = ClientSpec.swimlaneURI Sample.boardWithLane7 351 swimlaneID.
Proof.
  exact (ClientFacts.deletes_only_on_label_removal Sample.boardWithLane7
           Scenario.issue1 Sample.labelsRemoved []).
Defined.

Lemma creates_only_on_label_addition_witness :
  exists rs,
    snd (Client.updateDashboardIfNeed Sample.emptyBoard Scenario.issue1
           Sample.labelsAdded []) = [] ++ rs
    /\ forall r, In r rs -> Method r = "POST" ->
         r <> ClientSpec.loginRequest Sample.emptyBoard ->
         In swimlaneStoryLabel ["recycling-nsk"; "swimline-story"]
         /\ ~ In swimlaneStoryLabel ["recycling-nsk"]
         /\ URL r = ClientSpec.swimlanesURI Sample.emptyBoard 351
         /\ Body r
            = Some (String GoJson.quote
                      (GoJson.EncodeToString
                         "name=<PROJ-1> Fix crash&query=issue in linkedIssues(PROJ-1)"
                       ++ String GoJson.quote EmptyString))
         /\ Body r
            <> Some "name=<PROJ-1> Fix crash&query=issue in linkedIssues(PROJ-1)".
Proof.
  exact (ClientFacts.creates_only_on_label_addition Sample.emptyBoard
           Scenario.issue1 Sample.labelsAdded []).
Defined.

(** Both fetches answered with status 500 and the body "lane7". *)
Lemma fetched_replies_are_not_checked_witness :
  Client.login Sample.boardWithLane7 []
  = ((Sample.token, None), [ClientSpec.loginRequest Sample.boardWithLane7])
  /\ Client.getCurrentDashboard Sample.boardWithLane7 351 []
     = ((mkDashboard (mkCurrentViewConfig [Scenario.lane7]), None),
        [ClientSpec.loginRequest Sample.boardWithLane7]
        ++ [ClientSpec.sessionRequest "GET"
              (ClientSpec.configURI Sample.boardWithLane7 351) None Sample.token])
  /\ Client.getCurrentIssue Sample.boardWithLane7 "PROJ-1" []
     = ((Scenario.issue1, None),
        [ClientSpec.loginRequest Sample.boardWithLane7]
        ++ [ClientSpec.sessionRequest "GET"
              (ClientSpec.issueURI Sample.boardWithLane7 "PROJ-1") None
              Sample.token]).
Proof.
  split; [reflexivity|].
  exact (ClientFacts.fetched_replies_are_not_checked Sample.boardWithLane7
           351 "PROJ-1" [] _ Sample.token 500 500 "lane7" "lane7"
           eq_refl eq_refl eq_refl eq_refl eq_refl).
Defined.

(** PROJ-1 had no labels field and now has the trigger label. *)
Lemma first_labels_of_an_issue_witness :
  getCurrentSwimlanes (Scenario.trackerWith []) 351 = ([], None)
  /\ Forall (fun x => field_ID x <> labelsFieldID) [mkField "summary" "Fix crash"]
  /\ JiraApi.getSwimlaneUpdates (Scenario.trackerWith []) 351 Scenario.issue1
       (mkIssue "PROJ-1" [mkField "summary" "Fix crash"])
     = (JiraApi.mkSwimlaneUpdates "<PROJ-1> Fix crash" "create"
          "issue in linkedIssues(PROJ-1)", None).
Proof.
  assert (Forall (fun x => field_ID x <> labelsFieldID)
            [mkField "summary" "Fix crash"]) as Hold
    by (constructor; [discriminate|constructor]).
  refine (conj eq_refl (conj Hold _)).
  exact (first_labels_of_an_issue (Scenario.trackerWith []) 351 Scenario.issue1
           (mkIssue "PROJ-1" [mkField "summary" "Fix crash"]) []
           eq_refl Hold (fun sw (H : In sw []) => match H with end)).
Defined.

(** The team label and the trigger label leave together: the removal is
    addressed to dashboard 0. *)
Lemma changes_without_team_label_go_to_dashboard_0_witness :
  ~ In recyclingTeamLabel
      (snd (getLabelsFromChangelog (Items (Dataset Sample.teamLeft))))
  /\ snd (Client.updateDashboardIfNeed Sample.boardWithLane7 Scenario.issue1
            Sample.teamLeft [])
     = [ClientSpec.loginRequest Sample.boardWithLane7;
        ClientSpec.sessionRequest "GET"
          "https://jira.example/rest/greenhopper/1.0/xboard/config.json?returnDefaultBoard=false&rapidViewId=0"
          None Sample.token;
        ClientSpec.loginRequest Sample.boardWithLane7;
        ClientSpec.sessionRequest "DELETE"
          "https://jira.example/rest/greenhopper/1.0/swimlanes/0/7"
          None Sample.token]
  /\ exists rs,
       snd (Client.updateDashboardIfNeed Sample.boardWithLane7 Scenario.issue1
              Sample.teamLeft []) = [] ++ rs
       /\ forall r, In r rs ->
            r = ClientSpec.loginRequest Sample.boardWithLane7
            \/ (Method r = "GET"
                /\ URL r = ClientSpec.configURI Sample.boardWithLane7 0)
            \/ (Method r = "DELETE"
                /\ exists swimlaneID,
                     URL r = ClientSpec.swimlaneURI Sample.boardWithLane7 0
                               swimlaneID)
            \/ (Method r = "POST"
                /\ URL r = ClientSpec.swimlanesURI Sample.boardWithLane7 0).
Proof.
  assert (~ In recyclingTeamLabel
              (snd (getLabelsFromChangelog (Items (Dataset Sample.teamLeft)))))
    as Hteam by (simpl; intros [H|[]]; discriminate H).
  refine (conj Hteam (conj eq_refl _)).
  exact (ClientFacts.changes_without_team_label_go_to_dashboard_0
           Sample.boardWithLane7 Scenario.issue1 Sample.teamLeft [] Hteam).
Defined.

(** The earlier revision on two snapshots of PROJ-1, the later one on
    their labels, each with its own tracker and the same empty
    dashboard. *)
Lemma revisions_decide_alike_witness :
  getCurrentSwimlanes (Scenario.trackerWith []) 351 = ([], None)
  /\ getCurrentSwimlanes
       (fun _ => (mkDashboard (mkCurrentViewConfig []), None)) 351
     = ([], None)
  /\ JiraApi.getSwimlaneUpdates (Scenario.trackerWith []) 351 Scenario.issue1
       (mkIssue "PROJ-1" [mkField "labels" "bug"; mkField "summary" "Fix crash"])
     = (withoutID
          (fst (getSwimlaneUpdates
                  (fun _ => (mkDashboard (mkCurrentViewConfig []), None))
                  351 Scenario.issue1 ["bug"] ["bug"; "swimline-story"])),
        None).
Proof.
  refine (conj eq_refl (conj eq_refl _)).
  exact (proj1 (revisions_decide_alike
                  (Scenario.trackerWith [])
                  (fun _ => (mkDashboard (mkCurrentViewConfig []), None))
                  351 Scenario.issue1
                  (mkIssue "PROJ-1"
                     [mkField "labels" "bug"; mkField "summary" "Fix crash"])
                  [] eq_refl eq_refl)).
Defined.
